(** * Group clusters service of go-gitlab: a shallow embedding

    The development follows [group_clusters.go] (the second, later version
    of the file, which declares [GroupPlatformKubernetes] and the
    [AddGroupClusterOptions] / [EditGroupClusterOptions] structures; the
    earlier version has the same five method bodies over option types
    declared elsewhere in the package).

    Layout:
    - Go values: decimal formatting, JSON documents, the key matching and
      the typed decoding and encoding rules of [encoding/json];
    - the structures of the file with their [json] tags;
    - the five methods of [GroupClustersService], written over the client
      handle [s.client] and the package helpers [parseID] and [pathEscape],
      none of which is part of the file;
    - models of those collaborators, written from the specification;
    - the properties. *)

From Stdlib Require Import ZArith List String Ascii Bool Lia DecimalString.
Import ListNotations.

Set Implicit Arguments.
Set Warnings "-register-all".

(* ------------------------------------------------------------------ *)
(** ** Go values *)

(** [strconv.Itoa], and the [%d] verb of [fmt.Sprintf] on an [int]:
    decimal digits, with a leading minus sign for a negative number. *)
Definition Itoa (n : Z) : string := NilZero.string_of_int (Z.to_int n).

(** A byte of a Go string, as a number. *)
Definition byteOf (c : ascii) : N := N_of_ascii c.

Definition isDigit (c : ascii) : bool :=
  (48 <=? byteOf c)%N && (byteOf c <=? 57)%N.

(** Errors, after the taxonomy of the specification (section 7). The
    text carried by a transport error is informative only. *)
Inductive Error : Type :=
| InvalidIdentifier
| TransportError (what : string)
| HTTPError (status : Z).

(** A Go result [(value, error)] in which exactly one side is meaningful. *)
Inductive Res (A : Type) : Type :=
| Ok (a : A)
| Fail (e : Error).
Arguments Ok {A} a.
Arguments Fail {A} e.

Definition bindRes {A B} (r : Res A) (k : A -> Res B) : Res B :=
  match r with
  | Ok a => k a
  | Fail e => Fail e
  end.

Declare Scope res_scope.
Delimit Scope res_scope with res.
Notation "x <- r ;; k" := (bindRes r (fun x => k))
  (at level 61, r at next level, right associativity) : res_scope.

(** A Go slice: [nil], or a backing sequence (possibly empty). *)
Inductive Slice (A : Type) : Type :=
| nilSlice
| mkSlice (elems : list A).
Arguments nilSlice {A}.
Arguments mkSlice {A} elems.

Definition len {A} (s : Slice A) : nat :=
  match s with
  | nilSlice => 0
  | mkSlice l => List.length l
  end.

Definition elemsOf {A} (s : Slice A) : list A :=
  match s with
  | nilSlice => []
  | mkSlice l => l
  end.

(** The zero value of a Go type. *)
Class Zero (A : Type) : Type := zero : A.

#[export] Instance Zero_int : Zero Z := 0%Z.
#[export] Instance Zero_string : Zero string := EmptyString.
#[export] Instance Zero_bool : Zero bool := false.
#[export] Instance Zero_ptr {A} : Zero (option A) := None.
#[export] Instance Zero_slice {A} : Zero (Slice A) := nilSlice.

(* ------------------------------------------------------------------ *)
(** ** JSON documents

    A body is represented by the document it denotes: the byte-level
    grammar belongs to the codec. A number keeps its literal, which is
    what the decoder converts; an object keeps its members in order, with
    duplicates, which is how the decoder visits them. *)
Inductive JSON : Type :=
| JNull
| JBool (b : bool)
| JNumber (lit : string)
| JString (s : string)
| JArray (elems : list JSON)
| JObject (members : list (string * JSON)).

(** *** Matching an object key against a field name

    [encoding/json] prefers the field whose name is the key, and
    otherwise takes the first field whose name equals the key under
    Unicode simple case folding. For the ASCII names of this package the
    folding is the one below: letters match regardless of case, and the
    two non-ASCII runes that fold to ASCII letters, U+017F (long s) and
    U+212A (Kelvin sign), match [s] and [k]. *)
Definition caseMask : N := 223.

Definition upperOf (c : ascii) : N := N.land (byteOf c) caseMask.

Definition isLetter (c : ascii) : bool :=
  (65 <=? upperOf c)%N && (upperOf c <=? 90)%N.

Definition isByte (n : N) (c : ascii) : bool := (byteOf c =? n)%N.

Fixpoint equalFold (s t : string) : bool :=
  match s with
  | EmptyString =>
      match t with
      | EmptyString => true
      | String _ _ => false
      end
  | String sb s' =>
      match t with
      | EmptyString => false
      | String tb t' =>
          if (byteOf tb <? 128)%N then
            (Ascii.eqb sb tb || (isLetter sb && (upperOf sb =? upperOf tb)%N))
            && equalFold s' t'
          else
            match t' with
            | String t1 t1' =>
                if isByte 197 tb && isByte 191 t1 then
                  (upperOf sb =? 83)%N && equalFold s' t1'
                else
                  match t1' with
                  | String t2 t2' =>
                      if isByte 226 tb && isByte 132 t1 && isByte 170 t2 then
                        (upperOf sb =? 75)%N && equalFold s' t2'
                      else false
                  | EmptyString => false
                  end
            | EmptyString => false
            end
      end
  end.

(** The field a key selects, as the decoder's loop over the fields finds
    it: an exact match ends the search, the first folded match is kept
    otherwise. [found] is the folded match so far. *)
Fixpoint findFieldFrom {F} (fields : list (string * F)) (key : string)
  (found : option F) : option F :=
  match fields with
  | [] => found
  | (name, f) :: rest =>
      if String.eqb name key then Some f
      else
        findFieldFrom rest key
          (match found with
           | Some _ => found
           | None => if equalFold name key then Some f else None
           end)
  end.

Definition findField {F} (fields : list (string * F)) (key : string) : option F :=
  findFieldFrom fields key None.

(** *** Typed decoding *)

(** Decoding a document into a Go value that already holds [cur]: the
    decoder works in place, so what a document does not mention keeps
    its current content. *)
Class Unmarshaler (A : Type) : Type :=
  unmarshalJSON : JSON -> A -> Res A.

Definition typeError (what : string) : Error :=
  TransportError ("json: cannot unmarshal into Go value of type " ++ what).

(** [strconv.ParseInt(lit, 10, 64)]: an optional sign, then one or more
    decimal digits, the value within 64 bits. *)
Fixpoint parseDigits (s : string) (acc : Z) : option Z :=
  match s with
  | EmptyString => Some acc
  | String c s' =>
      if isDigit c
      then parseDigits s' (10 * acc + Z.of_N (byteOf c - 48))%Z
      else None
  end.

Definition parseUint (s : string) : option Z :=
  match s with
  | EmptyString => None
  | String _ _ => parseDigits s 0%Z
  end.

Definition inInt64 (n : Z) : bool :=
  ((- 2 ^ 63 <=? n) && (n <=? 2 ^ 63 - 1))%Z.

Definition parseInt (lit : string) : option Z :=
  let signed :=
    match lit with
    | String "-" rest => option_map Z.opp (parseUint rest)
    | String "+" rest => parseUint rest
    | _ => parseUint lit
    end in
  match signed with
  | Some n => if inInt64 n then Some n else None
  | None => None
  end.

(** An [int]: [null] leaves it alone, a number literal must be an
    integer that fits, anything else is a type error. *)
Definition decodeInt (j : JSON) (cur : Z) : Res Z :=
  match j with
  | JNull => Ok cur
  | JNumber lit =>
      match parseInt lit with
      | Some n => Ok n
      | None => Fail (typeError "int")
      end
  | _ => Fail (typeError "int")
  end.

(** A [string]: [null] leaves it alone. *)
Definition decodeString (j : JSON) (cur : string) : Res string :=
  match j with
  | JNull => Ok cur
  | JString s => Ok s
  | _ => Fail (typeError "string")
  end.

(** A pointer: [null] sets it to [nil]; any other document is decoded
    into the pointee, allocated at its zero value when the pointer was
    [nil]. *)
Definition decodePtr {A} `{Zero A} `{Unmarshaler A} (j : JSON) (cur : option A)
  : Res (option A) :=
  match j with
  | JNull => Ok None
  | _ =>
      match unmarshalJSON j (match cur with Some a => a | None => zero end) with
      | Ok a => Ok (Some a)
      | Fail e => Fail e
      end
  end.

(** The elements of an array, each decoded into the element the slice
    already has at that index, or into a fresh zero element. *)
Fixpoint decodeElems {A} `{Zero A} `{Unmarshaler A} (elems : list JSON) (cur : list A)
  : Res (list A) :=
  match elems with
  | [] => Ok []
  | j :: js =>
      match unmarshalJSON j (hd zero cur) with
      | Fail e => Fail e
      | Ok a =>
          match decodeElems js (tl cur) with
          | Fail e => Fail e
          | Ok l => Ok (a :: l)
          end
      end
  end.

(** A slice: [null] sets it to [nil]; an array gives a slice of exactly
    its length (an empty array gives an empty slice that is not [nil]). *)
Definition decodeSlice {A} `{Zero A} `{Unmarshaler A} (j : JSON) (cur : Slice A)
  : Res (Slice A) :=
  match j with
  | JNull => Ok nilSlice
  | JArray elems =>
      match decodeElems elems (elemsOf cur) with
      | Ok l => Ok (mkSlice l)
      | Fail e => Fail e
      end
  | _ => Fail (typeError "slice")
  end.

(** The members of an object, in order, each stored through [store] into
    the field its key selects; a key that selects no field is skipped. *)
Fixpoint decodeMembers {T F} (fields : list (string * F))
  (store : F -> JSON -> T -> Res T) (ms : list (string * JSON)) (cur : T) : Res T :=
  match ms with
  | [] => Ok cur
  | (key, v) :: rest =>
      match findField fields key with
      | None => decodeMembers fields store rest cur
      | Some f =>
          match store f v cur with
          | Fail e => Fail e
          | Ok cur' => decodeMembers fields store rest cur'
          end
      end
  end.

(** A struct: [null] leaves it alone, an object is decoded member by
    member, anything else is a type error. *)
Definition decodeStruct {T F} (what : string) (fields : list (string * F))
  (store : F -> JSON -> T -> Res T) (j : JSON) (cur : T) : Res T :=
  match j with
  | JNull => Ok cur
  | JObject ms => decodeMembers fields store ms cur
  | _ => Fail (typeError what)
  end.

#[export] Instance Unmarshaler_int : Unmarshaler Z := decodeInt.
#[export] Instance Unmarshaler_string : Unmarshaler string := decodeString.
#[export] Instance Unmarshaler_ptr {A} `{Zero A} `{Unmarshaler A}
  : Unmarshaler (option A) := decodePtr.
#[export] Instance Unmarshaler_slice {A} `{Zero A} `{Unmarshaler A}
  : Unmarshaler (Slice A) := decodeSlice.

(** *** Typed encoding *)

Class Marshaler (A : Type) : Type :=
  marshalJSON : A -> JSON.

#[export] Instance Marshaler_string : Marshaler string := JString.
#[export] Instance Marshaler_bool : Marshaler bool := JBool.
#[export] Instance Marshaler_ptr {A} `{Marshaler A} : Marshaler (option A) :=
  fun p => match p with
           | None => JNull
           | Some a => marshalJSON a
           end.

(** A pointer field tagged [omitempty]: left out when [nil], and written
    with the encoding of its pointee otherwise, also when the pointee is
    the empty string or [false]. *)
Definition omitempty {A} `{Marshaler A} (name : string) (p : option A)
  : list (string * JSON) :=
  match p with
  | None => []
  | Some a => [(name, marshalJSON a)]
  end.

(* ------------------------------------------------------------------ *)
(** ** The structures of [group_clusters.go] *)

(** [GroupPlatformKubernetes], with the tags [api_url], [token],
    [ca_cert] and [authorization_type]. *)
Record GroupPlatformKubernetes : Type := {
  APIURL : string;
  Token : string;
  CaCert : string;
  AuthorizationType : string
}.

#[export] Instance Zero_GroupPlatformKubernetes : Zero GroupPlatformKubernetes :=
  {| APIURL := zero; Token := zero; CaCert := zero; AuthorizationType := zero |}.

Inductive GroupPlatformKubernetesField : Type :=
| F_api_url
| F_token
| F_ca_cert
| F_authorization_type.

Definition GroupPlatformKubernetes_fields : list (string * GroupPlatformKubernetesField) :=
  [ ("api_url", F_api_url);
    ("token", F_token);
    ("ca_cert", F_ca_cert);
    ("authorization_type", F_authorization_type) ]%string.

Definition GroupPlatformKubernetes_store (f : GroupPlatformKubernetesField) (j : JSON)
  (k : GroupPlatformKubernetes) : Res GroupPlatformKubernetes :=
  match f with
  | F_api_url =>
      (v <- unmarshalJSON j (APIURL k) ;;
       Ok {| APIURL := v; Token := Token k; CaCert := CaCert k;
             AuthorizationType := AuthorizationType k |})%res
  | F_token =>
      (v <- unmarshalJSON j (Token k) ;;
       Ok {| APIURL := APIURL k; Token := v; CaCert := CaCert k;
             AuthorizationType := AuthorizationType k |})%res
  | F_ca_cert =>
      (v <- unmarshalJSON j (CaCert k) ;;
       Ok {| APIURL := APIURL k; Token := Token k; CaCert := v;
             AuthorizationType := AuthorizationType k |})%res
  | F_authorization_type =>
      (v <- unmarshalJSON j (AuthorizationType k) ;;
       Ok {| APIURL := APIURL k; Token := Token k; CaCert := CaCert k;
             AuthorizationType := v |})%res
  end.

#[export] Instance Unmarshaler_GroupPlatformKubernetes
  : Unmarshaler GroupPlatformKubernetes :=
  decodeStruct "GroupPlatformKubernetes" GroupPlatformKubernetes_fields
    GroupPlatformKubernetes_store.

Section Cluster.

(** [time.Time], and the package's [User] and [Group] structures, are
    declared outside the file: the structures below are written over any
    three types that have a zero value and a decoder. *)
Context {TimeT UserT GroupT : Type}.
Context {Zero_Time : Zero TimeT} {Unmarshaler_Time : Unmarshaler TimeT}.
Context {Zero_User : Zero UserT} {Unmarshaler_User : Unmarshaler UserT}.
Context {Zero_Group : Zero GroupT} {Unmarshaler_Group : Unmarshaler GroupT}.

(** [GroupCluster], field by field with the tags [id], [name], [domain],
    [created_at], [provider_type], [platform_type], [environment_scope],
    [cluster_type], [user], [platform_kubernetes] and [group]. *)
Record GroupCluster : Type := {
  ID : Z;
  Name : string;
  Domain : string;
  CreatedAt : option TimeT;
  ProviderType : string;
  PlatformType : string;
  EnvironmentScope : string;
  ClusterType : string;
  User : option UserT;
  PlatformKubernetes : option GroupPlatformKubernetes;
  Group : option GroupT
}.

#[export] Instance Zero_GroupCluster : Zero GroupCluster :=
  {| ID := zero; Name := zero; Domain := zero; CreatedAt := zero;
     ProviderType := zero; PlatformType := zero; EnvironmentScope := zero;
     ClusterType := zero; User := zero; PlatformKubernetes := zero;
     Group := zero |}.

Inductive GroupClusterField : Type :=
| F_id
| F_name
| F_domain
| F_created_at
| F_provider_type
| F_platform_type
| F_environment_scope
| F_cluster_type
| F_user
| F_platform_kubernetes
| F_group.

Definition GroupCluster_fields : list (string * GroupClusterField) :=
  [ ("id", F_id);
    ("name", F_name);
    ("domain", F_domain);
    ("created_at", F_created_at);
    ("provider_type", F_provider_type);
    ("platform_type", F_platform_type);
    ("environment_scope", F_environment_scope);
    ("cluster_type", F_cluster_type);
    ("user", F_user);
    ("platform_kubernetes", F_platform_kubernetes);
    ("group", F_group) ]%string.

Definition set_ID (v : Z) (c : GroupCluster) : GroupCluster :=
  {| ID := v; Name := Name c; Domain := Domain c; CreatedAt := CreatedAt c;
     ProviderType := ProviderType c; PlatformType := PlatformType c;
     EnvironmentScope := EnvironmentScope c; ClusterType := ClusterType c;
     User := User c; PlatformKubernetes := PlatformKubernetes c; Group := Group c |}.

Definition set_Name (v : string) (c : GroupCluster) : GroupCluster :=
  {| ID := ID c; Name := v; Domain := Domain c; CreatedAt := CreatedAt c;
     ProviderType := ProviderType c; PlatformType := PlatformType c;
     EnvironmentScope := EnvironmentScope c; ClusterType := ClusterType c;
     User := User c; PlatformKubernetes := PlatformKubernetes c; Group := Group c |}.

Definition set_Domain (v : string) (c : GroupCluster) : GroupCluster :=
  {| ID := ID c; Name := Name c; Domain := v; CreatedAt := CreatedAt c;
     ProviderType := ProviderType c; PlatformType := PlatformType c;
     EnvironmentScope := EnvironmentScope c; ClusterType := ClusterType c;
     User := User c; PlatformKubernetes := PlatformKubernetes c; Group := Group c |}.

Definition set_CreatedAt (v : option TimeT) (c : GroupCluster) : GroupCluster :=
  {| ID := ID c; Name := Name c; Domain := Domain c; CreatedAt := v;
     ProviderType := ProviderType c; PlatformType := PlatformType c;
     EnvironmentScope := EnvironmentScope c; ClusterType := ClusterType c;
     User := User c; PlatformKubernetes := PlatformKubernetes c; Group := Group c |}.

Definition set_ProviderType (v : string) (c : GroupCluster) : GroupCluster :=
  {| ID := ID c; Name := Name c; Domain := Domain c; CreatedAt := CreatedAt c;
     ProviderType := v; PlatformType := PlatformType c;
     EnvironmentScope := EnvironmentScope c; ClusterType := ClusterType c;
     User := User c; PlatformKubernetes := PlatformKubernetes c; Group := Group c |}.

Definition set_PlatformType (v : string) (c : GroupCluster) : GroupCluster :=
  {| ID := ID c; Name := Name c; Domain := Domain c; CreatedAt := CreatedAt c;
     ProviderType := ProviderType c; PlatformType := v;
     EnvironmentScope := EnvironmentScope c; ClusterType := ClusterType c;
     User := User c; PlatformKubernetes := PlatformKubernetes c; Group := Group c |}.

Definition set_EnvironmentScope (v : string) (c : GroupCluster) : GroupCluster :=
  {| ID := ID c; Name := Name c; Domain := Domain c; CreatedAt := CreatedAt c;
     ProviderType := ProviderType c; PlatformType := PlatformType c;
     EnvironmentScope := v; ClusterType := ClusterType c;
     User := User c; PlatformKubernetes := PlatformKubernetes c; Group := Group c |}.

Definition set_ClusterType (v : string) (c : GroupCluster) : GroupCluster :=
  {| ID := ID c; Name := Name c; Domain := Domain c; CreatedAt := CreatedAt c;
     ProviderType := ProviderType c; PlatformType := PlatformType c;
     EnvironmentScope := EnvironmentScope c; ClusterType := v;
     User := User c; PlatformKubernetes := PlatformKubernetes c; Group := Group c |}.

Definition set_User (v : option UserT) (c : GroupCluster) : GroupCluster :=
  {| ID := ID c; Name := Name c; Domain := Domain c; CreatedAt := CreatedAt c;
     ProviderType := ProviderType c; PlatformType := PlatformType c;
     EnvironmentScope := EnvironmentScope c; ClusterType := ClusterType c;
     User := v; PlatformKubernetes := PlatformKubernetes c; Group := Group c |}.

Definition set_PlatformKubernetes (v : option GroupPlatformKubernetes)
  (c : GroupCluster) : GroupCluster :=
  {| ID := ID c; Name := Name c; Domain := Domain c; CreatedAt := CreatedAt c;
     ProviderType := ProviderType c; PlatformType := PlatformType c;
     EnvironmentScope := EnvironmentScope c; ClusterType := ClusterType c;
     User := User c; PlatformKubernetes := v; Group := Group c |}.

Definition set_Group (v : option GroupT) (c : GroupCluster) : GroupCluster :=
  {| ID := ID c; Name := Name c; Domain := Domain c; CreatedAt := CreatedAt c;
     ProviderType := ProviderType c; PlatformType := PlatformType c;
     EnvironmentScope := EnvironmentScope c; ClusterType := ClusterType c;
     User := User c; PlatformKubernetes := PlatformKubernetes c; Group := v |}.

(** Storing one member: the document is decoded by the rule of the
    field's Go type, into the field's current content. *)
Definition GroupCluster_store (f : GroupClusterField) (j : JSON) (c : GroupCluster)
  : Res GroupCluster :=
  match f with
  | F_id => (v <- unmarshalJSON j (ID c) ;; Ok (set_ID v c))%res
  | F_name => (v <- unmarshalJSON j (Name c) ;; Ok (set_Name v c))%res
  | F_domain => (v <- unmarshalJSON j (Domain c) ;; Ok (set_Domain v c))%res
  | F_created_at => (v <- unmarshalJSON j (CreatedAt c) ;; Ok (set_CreatedAt v c))%res
  | F_provider_type =>
      (v <- unmarshalJSON j (ProviderType c) ;; Ok (set_ProviderType v c))%res
  | F_platform_type =>
      (v <- unmarshalJSON j (PlatformType c) ;; Ok (set_PlatformType v c))%res
  | F_environment_scope =>
      (v <- unmarshalJSON j (EnvironmentScope c) ;; Ok (set_EnvironmentScope v c))%res
  | F_cluster_type =>
      (v <- unmarshalJSON j (ClusterType c) ;; Ok (set_ClusterType v c))%res
  | F_user => (v <- unmarshalJSON j (User c) ;; Ok (set_User v c))%res
  | F_platform_kubernetes =>
      (v <- unmarshalJSON j (PlatformKubernetes c) ;;
       Ok (set_PlatformKubernetes v c))%res
  | F_group => (v <- unmarshalJSON j (Group c) ;; Ok (set_Group v c))%res
  end.

#[export] Instance Unmarshaler_GroupCluster : Unmarshaler GroupCluster :=
  decodeStruct "GroupCluster" GroupCluster_fields GroupCluster_store.

End Cluster.

Arguments GroupCluster : clear implicits.

(** [AddGroupPlatformKubernetesOptions]: four optional strings, each
    tagged [omitempty]. *)
Module AddGroupPlatformKubernetesOptions.
Record t : Type := {
  APIURL : option string;
  Token : option string;
  CaCert : option string;
  AuthorizationType : option string
}.
Definition members (o : t) : list (string * JSON) :=
  (omitempty "api_url" (APIURL o)
   ++ omitempty "token" (Token o)
   ++ omitempty "ca_cert" (CaCert o)
   ++ omitempty "authorization_type" (AuthorizationType o))%list.
End AddGroupPlatformKubernetesOptions.

#[export] Instance Marshaler_AddGroupPlatformKubernetesOptions
  : Marshaler AddGroupPlatformKubernetesOptions.t :=
  fun o => JObject (AddGroupPlatformKubernetesOptions.members o).

(** [AddGroupClusterOptions]. *)
Module AddGroupClusterOptions.
Record t : Type := {
  Name : option string;
  Domain : option string;
  Enabled : option bool;
  Managed : option bool;
  EnvironmentScope : option string;
  PlatformKubernetes : option AddGroupPlatformKubernetesOptions.t
}.
Definition members (o : t) : list (string * JSON) :=
  (omitempty "name" (Name o)
   ++ omitempty "domain" (Domain o)
   ++ omitempty "enabled" (Enabled o)
   ++ omitempty "managed" (Managed o)
   ++ omitempty "environment_scope" (EnvironmentScope o)
   ++ omitempty "platform_kubernetes_attributes" (PlatformKubernetes o))%list.
End AddGroupClusterOptions.

#[export] Instance Marshaler_AddGroupClusterOptions
  : Marshaler AddGroupClusterOptions.t :=
  fun o => JObject (AddGroupClusterOptions.members o).

(** [EditGroupPlatformKubernetesOptions]: [api_url], [token] and
    [ca_cert]; there is no [authorization_type] field. *)
Module EditGroupPlatformKubernetesOptions.
Record t : Type := {
  APIURL : option string;
  Token : option string;
  CaCert : option string
}.
Definition members (o : t) : list (string * JSON) :=
  (omitempty "api_url" (APIURL o)
   ++ omitempty "token" (Token o)
   ++ omitempty "ca_cert" (CaCert o))%list.
End EditGroupPlatformKubernetesOptions.

#[export] Instance Marshaler_EditGroupPlatformKubernetesOptions
  : Marshaler EditGroupPlatformKubernetesOptions.t :=
  fun o => JObject (EditGroupPlatformKubernetesOptions.members o).

(** [EditGroupClusterOptions]. *)
Module EditGroupClusterOptions.
Record t : Type := {
  Name : option string;
  Domain : option string;
  EnvironmentScope : option string;
  PlatformKubernetes : option EditGroupPlatformKubernetesOptions.t
}.
Definition members (o : t) : list (string * JSON) :=
  (omitempty "name" (Name o)
   ++ omitempty "domain" (Domain o)
   ++ omitempty "environment_scope" (EnvironmentScope o)
   ++ omitempty "platform_kubernetes_attributes" (PlatformKubernetes o))%list.
End EditGroupClusterOptions.

#[export] Instance Marshaler_EditGroupClusterOptions
  : Marshaler EditGroupClusterOptions.t :=
  fun o => JObject (EditGroupClusterOptions.members o).

(** The keys of an object, in order. *)
Definition keysOf (j : JSON) : list string :=
  match j with
  | JObject ms => map fst ms
  | _ => []
  end.

(** The value of the first member with the given key. *)
Fixpoint lookupMember (key : string) (ms : list (string * JSON)) : option JSON :=
  match ms with
  | [] => None
  | (k, v) :: rest => if String.eqb k key then Some v else lookupMember key rest
  end.

Definition member (key : string) (j : JSON) : option JSON :=
  match j with
  | JObject ms => lookupMember key ms
  | _ => None
  end.

(* ------------------------------------------------------------------ *)
(** ** The service *)

(** A group identifier, [gid interface{}]: an [int], a [string], or a
    value of any other dynamic type (named by [goType]). *)
Inductive GID : Type :=
| GidInt (n : Z)
| GidString (s : string)
| GidOther (goType : string).

(** The package helpers the methods call. They are declared in another
    file of the package, so the methods are written over any pair of
    them. *)
Class Helpers : Type := {
  parseID : GID -> Res string;
  pathEscape : string -> string
}.

(** The dynamic type of an untyped [nil] passed as [interface{}]. *)
Inductive Untyped : Type := .

#[export] Instance Marshaler_Untyped : Marshaler Untyped :=
  fun x => match x with end.
#[export] Instance Unmarshaler_Untyped : Unmarshaler Untyped :=
  fun _ x => match x with end.

Abbreviation untypedNil := (@None Untyped).

Section Service.

(** What lies behind the client handle: the state of the outside world
    (server and network), the request and response objects, and the
    per-call request options. *)
Context {World Request Response OptionFunc : Type}.
Context {TimeT UserT GroupT : Type}.
Context {Zero_Time : Zero TimeT} {Unmarshaler_Time : Unmarshaler TimeT}.
Context {Zero_User : Zero UserT} {Unmarshaler_User : Unmarshaler UserT}.
Context {Zero_Group : Zero GroupT} {Unmarshaler_Group : Unmarshaler GroupT}.
Context {helpers : Helpers}.

Abbreviation Cluster := (GroupCluster TimeT UserT GroupT).

(** What [Client.Do] hands back: the response, the error, and what it
    stored through its target [v] (nothing when [v] was [nil] or when it
    left the target alone). *)
Definition DoResult (A : Type) : Type :=
  (option Response * option Error * option A)%type.

(** The client: [NewRequest(method, path, opt, options)] builds a
    request or fails; [Do(req, v)] runs it against the world. [opt] and
    [v] are [interface{}] values: a typed value with the codec of its
    dynamic type, or [nil]. *)
Record Client : Type := {
  NewRequest : forall (O : Type), Marshaler O ->
    string -> string -> option O -> list OptionFunc -> Res Request;
  Do : forall (A : Type), Unmarshaler A ->
    Request -> option A -> World -> DoResult A * World
}.

Record GroupClustersService : Type := {
  client : Client
}.

(** The calls a method makes on the client are recorded, in order, next
    to the world they act on. The record is an observer: no method reads
    it. *)
Inductive Call : Type :=
| CallNewRequest (method path : string) (opt : option JSON) (options : list OptionFunc)
| CallDo (req : Request).

Record State : Type := {
  world : World;
  calls : list Call
}.

Definition M (A : Type) : Type := State -> A * State.

Definition ret {A} (a : A) : M A := fun st => (a, st).

Definition bind {A B} (m : M A) (k : A -> M B) : M B :=
  fun st => let (a, st') := m st in k a st'.

Definition callNewRequest {O} {mo : Marshaler O} (c : Client) (method path : string)
  (opt : option O) (options : list OptionFunc) : M (Res Request) :=
  fun st =>
    (NewRequest c mo method path opt options,
     {| world := world st;
        calls := calls st
                 ++ [CallNewRequest method path (option_map marshalJSON opt) options] |}).

Definition callDo {A} {ua : Unmarshaler A} (c : Client) (req : Request) (v : option A)
  : M (DoResult A) :=
  fun st =>
    let (out, w) := Do c ua req v (world st) in
    (out, {| world := w; calls := calls st ++ [CallDo req] |}).

(** The content of a variable after [Do] was given its address. *)
Definition after {A} (init : A) (stored : option A) : A :=
  match stored with
  | Some a => a
  | None => init
  end.

Declare Scope go_scope.
Delimit Scope go_scope with go.
Notation "x <- m ;; k" := (bind m (fun x => k))
  (at level 61, m at next level, right associativity) : go_scope.
Notation "' pat <- m ;; k" := (bind m (fun x => match x with pat => k end))
  (at level 61, pat pattern, m at next level, right associativity) : go_scope.

(** [ListClusters]. *)
Definition ListClusters (s : GroupClustersService) (gid : GID)
  (options : list OptionFunc)
  : M (Slice (option Cluster) * option Response * option Error) :=
  match parseID gid with
  | Fail err => ret (nilSlice, None, Some err)
  | Ok group =>
      let u := ("groups/" ++ pathEscape group ++ "/clusters")%string in
      (r <- callNewRequest (client s) "GET" u untypedNil options ;;
       match r with
       | Fail err => ret (nilSlice, None, Some err)
       | Ok req =>
           let pcs : Slice (option Cluster) := nilSlice in
           ('(resp, err, stored) <- callDo (client s) req (Some pcs) ;;
            match err with
            | Some e => ret (nilSlice, resp, Some e)
            | None => ret (after pcs stored, resp, err)
            end)
       end)%go
  end.

(** [GetCluster]: [Do] is given the address of the pointer [pc], so the
    decoder may set the pointer itself. *)
Definition GetCluster (s : GroupClustersService) (gid : GID) (cluster : Z)
  (options : list OptionFunc)
  : M (option Cluster * option Response * option Error) :=
  match parseID gid with
  | Fail err => ret (None, None, Some err)
  | Ok group =>
      let u := ("groups/" ++ pathEscape group ++ "/clusters/" ++ Itoa cluster)%string in
      (r <- callNewRequest (client s) "GET" u untypedNil options ;;
       match r with
       | Fail err => ret (None, None, Some err)
       | Ok req =>
           let pc : option Cluster := Some zero in
           ('(resp, err, stored) <- callDo (client s) req (Some pc) ;;
            match err with
            | Some e => ret (None, resp, Some e)
            | None => ret (after pc stored, resp, err)
            end)
       end)%go
  end.

(** [AddCluster]: [Do] is given the pointer [pc] itself, so the decoder
    fills the structure it points to. *)
Definition AddCluster (s : GroupClustersService) (gid : GID)
  (opt : option AddGroupClusterOptions.t) (options : list OptionFunc)
  : M (option Cluster * option Response * option Error) :=
  match parseID gid with
  | Fail err => ret (None, None, Some err)
  | Ok group =>
      let u := ("groups/" ++ pathEscape group ++ "/clusters/user")%string in
      (r <- callNewRequest (client s) "POST" u (Some opt) options ;;
       match r with
       | Fail err => ret (None, None, Some err)
       | Ok req =>
           let pc : Cluster := zero in
           ('(resp, err, stored) <- callDo (client s) req (Some pc) ;;
            match err with
            | Some e => ret (None, resp, Some e)
            | None => ret (Some (after pc stored), resp, err)
            end)
       end)%go
  end.

(** [EditCluster]. *)
Definition EditCluster (s : GroupClustersService) (gid : GID) (cluster : Z)
  (opt : option EditGroupClusterOptions.t) (options : list OptionFunc)
  : M (option Cluster * option Response * option Error) :=
  match parseID gid with
  | Fail err => ret (None, None, Some err)
  | Ok group =>
      let u := ("groups/" ++ pathEscape group ++ "/clusters/" ++ Itoa cluster)%string in
      (r <- callNewRequest (client s) "PUT" u (Some opt) options ;;
       match r with
       | Fail err => ret (None, None, Some err)
       | Ok req =>
           let pc : Cluster := zero in
           ('(resp, err, stored) <- callDo (client s) req (Some pc) ;;
            match err with
            | Some e => ret (None, resp, Some e)
            | None => ret (Some (after pc stored), resp, err)
            end)
       end)%go
  end.

(** [DeleteCluster]: no target, and the pair [Do] returns is the
    method's own result. *)
Definition DeleteCluster (s : GroupClustersService) (gid : GID) (cluster : Z)
  (options : list OptionFunc) : M (option Response * option Error) :=
  match parseID gid with
  | Fail err => ret (None, Some err)
  | Ok group =>
      let u := ("groups/" ++ pathEscape group ++ "/clusters/" ++ Itoa cluster)%string in
      (r <- callNewRequest (client s) "DELETE" u untypedNil options ;;
       match r with
       | Fail err => ret (None, Some err)
       | Ok req =>
           ('(resp, err, _) <- callDo (client s) req untypedNil ;;
            ret (resp, err))
       end)%go
  end.

End Service.

(* ------------------------------------------------------------------ *)
(** ** The collaborators, from the specification *)

(** Modelled from the spec: [parseID] (the Identifier Resolver of
    section 4.1) is declared outside the file. It accepts an integer or a
    string, and "fails with an InvalidIdentifier error when given a type
    other than integer or string, or an empty string". *)
Definition specParseID (gid : GID) : Res string :=
  match gid with
  | GidInt n => Ok (Itoa n)
  | GidString EmptyString => Fail InvalidIdentifier
  | GidString s => Ok s
  | GidOther _ => Fail InvalidIdentifier
  end.

Definition hexDigit (n : N) : ascii :=
  if (n <? 10)%N then ascii_of_N (48 + n) else ascii_of_N (55 + n).

Definition percent (c : ascii) : string :=
  String "%" (String (hexDigit (byteOf c / 16)) (String (hexDigit (byteOf c mod 16)) EmptyString)).

Definition isOneOf (chars : string) (c : ascii) : bool :=
  existsb (Ascii.eqb c) (list_ascii_of_string chars).

(** The bytes a path segment keeps as they are: ASCII letters and
    digits, and the marks below. The slash and the dot are not among
    them. *)
Definition keptInSegment (c : ascii) : bool :=
  ((byteOf c <? 128)%N && (isLetter c || isDigit c)) || isOneOf "-_~$&+=:@" c.

(** Modelled from the spec: [pathEscape] is declared outside the file.
    The spec says the string form of the identifier is "percent-escaped"
    into a "URL-safe path segment": every byte that a segment does not
    keep is written as [%XX], in upper-case hexadecimal. *)
Fixpoint specPathEscape (s : string) : string :=
  match s with
  | EmptyString => EmptyString
  | String c s' =>
      if keptInSegment c then String c (specPathEscape s')
      else (percent c ++ specPathEscape s')%string
  end.

#[export] Instance specHelpers : Helpers := {|
  parseID := specParseID;
  pathEscape := specPathEscape
|}.

(** Modelled from the spec: the request object of the Generic Request
    Builder (section 2): "an HTTP verb, a relative path, and an optional
    body payload", the path taken "against a configured base URL". *)
Record HTTPRequest : Type := {
  Method : string;
  URL : string;
  Body : option JSON
}.

(** What a response carries where the decoder expects a document: no
    bytes at all, bytes that are not JSON, or a document. *)
Inductive ResponseBody : Type :=
| EmptyBody
| MalformedBody
| Document (j : JSON).

(** Modelled from the spec: the response object, of which the methods'
    callers inspect the status code (section 7). *)
Record HTTPResponse : Type := {
  StatusCode : Z;
  ResponseOf : ResponseBody
}.

(** A per-call option: it edits the request under construction, or
    fails. *)
Definition RequestOption : Type := HTTPRequest -> Res HTTPRequest.

Fixpoint applyOptions (options : list RequestOption) (req : HTTPRequest)
  : Res HTTPRequest :=
  match options with
  | [] => Ok req
  | fn :: rest =>
      match fn req with
      | Fail e => Fail e
      | Ok req' => applyOptions rest req'
      end
  end.

Definition is2xx (status : Z) : bool :=
  ((200 <=? status) && (status <? 300))%Z.

Section SpecClient.

Context {World : Type}.

(** The configured base URL, and the transport: one round trip against
    the world, which yields a response or fails without one. *)
Variable baseURL : string.
Variable transport : HTTPRequest -> World -> Res HTTPResponse * World.

(** Modelled from the spec: [Client.NewRequest] (the Generic Request
    Builder) is declared outside the file. "Given an HTTP verb, a
    relative path, and an optional body payload, constructs a
    fully-formed request object against a configured base URL"; the
    payload goes out "as JSON" (section 6). The per-call options, on
    which the spec is silent, are applied in order to the request so
    built. *)
Definition specNewRequest (O : Type) (mo : Marshaler O) (method path : string)
  (opt : option O) (options : list RequestOption) : Res HTTPRequest :=
  applyOptions options
    {| Method := method;
       URL := (baseURL ++ path)%string;
       Body := option_map marshalJSON opt |}.

(** Modelled from the spec: [Client.Do] (the Generic Dispatcher) is
    declared outside the file. It "executes a built request over the
    transport, deserializes a successful JSON body into a target typed
    value, and normalizes transport/HTTP errors into a uniform
    error+response pair": a transport failure comes back unchanged and
    without a response; a status outside 2xx is an [HTTPError] "with the
    raw response always returned alongside"; a body that does not decode
    into the target is a [TransportError] ("malformed response body").
    Without a target the body is not read. *)
Definition specDo (A : Type) (ua : Unmarshaler A) (req : HTTPRequest) (v : option A)
  (w : World) : (option HTTPResponse * option Error * option A) * World :=
  match transport req w with
  | (Fail e, w') => ((None, Some e, None), w')
  | (Ok resp, w') =>
      if is2xx (StatusCode resp) then
        match v with
        | None => ((Some resp, None, None), w')
        | Some cur =>
            match ResponseOf resp with
            | EmptyBody => ((Some resp, Some (TransportError "EOF"), None), w')
            | MalformedBody =>
                ((Some resp, Some (TransportError "invalid JSON"), None), w')
            | Document j =>
                match unmarshalJSON j cur with
                | Ok a => ((Some resp, None, Some a), w')
                | Fail e => ((Some resp, Some e, None), w')
                end
            end
        end
      else ((Some resp, Some (HTTPError (StatusCode resp)), None), w')
  end.

Definition specClient : Client (World := World) :=
  {| NewRequest := specNewRequest; Do := specDo |}.

Definition specService : GroupClustersService :=
  {| client := specClient |}.

End SpecClient.

(** *** The three types declared outside the file *)

Definition optBind {A B} (o : option A) (k : A -> option B) : option B :=
  match o with
  | Some a => k a
  | None => None
  end.

Declare Scope opt_scope.
Delimit Scope opt_scope with opt.
Notation "x <- o ;; k" := (optBind o (fun x => k))
  (at level 61, o at next level, right associativity) : opt_scope.
Notation "' pat <- o ;; k" := (optBind o (fun x => match x with pat => k end))
  (at level 61, pat pattern, o at next level, right associativity) : opt_scope.

(** [time.Time], as far as the decoder is concerned: the fields of an
    RFC 3339 timestamp ("timestamps are RFC3339 strings parsed into a
    structured time value", section 6). *)
Module Timestamp.

Record t : Type := {
  year : Z;
  month : Z;
  day : Z;
  hour : Z;
  minute : Z;
  second : Z;
  nanosecond : Z;
  offset : Z
}.

Definition digit (s : string) : option (Z * string) :=
  match s with
  | String c rest => if isDigit c then Some (Z.of_N (byteOf c - 48), rest) else None
  | EmptyString => None
  end.

Definition digits2 (s : string) : option (Z * string) :=
  ('(a, s1) <- digit s ;;
   '(b, s2) <- digit s1 ;;
   Some (10 * a + b, s2)%Z)%opt.

Definition digits4 (s : string) : option (Z * string) :=
  ('(a, s1) <- digits2 s ;;
   '(b, s2) <- digits2 s1 ;;
   Some (100 * a + b, s2)%Z)%opt.

Definition expect (c : ascii) (s : string) : option string :=
  match s with
  | String d rest => if Ascii.eqb c d then Some rest else None
  | EmptyString => None
  end.

(** The digits of a fraction of a second, scaled to nanoseconds; digits
    past the ninth are dropped. [place] is the weight of the next digit. *)
Fixpoint fraction (s : string) (place acc : Z) : Z * string :=
  match s with
  | String c rest =>
      if isDigit c
      then fraction rest (place / 10) (acc + place * Z.of_N (byteOf c - 48))%Z
      else (acc, s)
  | EmptyString => (acc, s)
  end.

Definition optFraction (s : string) : option (Z * string) :=
  match s with
  | String c rest =>
      if Ascii.eqb c "." then
        match digit rest with
        | Some _ => Some (fraction rest 100000000 0)
        | None => None
        end
      else Some (0%Z, s)
  | EmptyString => Some (0%Z, s)
  end.

Definition zone (s : string) : option Z :=
  match s with
  | String c rest =>
      if Ascii.eqb c "Z" then
        match rest with
        | EmptyString => Some 0%Z
        | String _ _ => None
        end
      else if Ascii.eqb c "+" || Ascii.eqb c "-" then
        ('(h, s1) <- digits2 rest ;;
         s2 <- expect ":" s1 ;;
         '(m, s3) <- digits2 s2 ;;
         match s3 with
         | EmptyString =>
             if ((h <? 24) && (m <? 60))%Z
             then Some (if Ascii.eqb c "-" then - (3600 * h + 60 * m) else 3600 * h + 60 * m)%Z
             else None
         | String _ _ => None
         end)%opt
      else None
  | EmptyString => None
  end.

Definition isLeap (y : Z) : bool :=
  ((y mod 4 =? 0) && (negb (y mod 100 =? 0) || (y mod 400 =? 0)))%Z.

Definition daysIn (m y : Z) : Z :=
  if (m =? 2)%Z then (if isLeap y then 29 else 28)%Z
  else if ((m =? 4) || (m =? 6) || (m =? 9) || (m =? 11))%Z then 30%Z
  else 31%Z.

Definition parse (s : string) : option t :=
  ('(y, s1) <- digits4 s ;;
   s2 <- expect "-" s1 ;;
   '(mo, s3) <- digits2 s2 ;;
   s4 <- expect "-" s3 ;;
   '(d, s5) <- digits2 s4 ;;
   s6 <- expect "T" s5 ;;
   '(h, s7) <- digits2 s6 ;;
   s8 <- expect ":" s7 ;;
   '(mi, s9) <- digits2 s8 ;;
   s10 <- expect ":" s9 ;;
   '(sec, s11) <- digits2 s10 ;;
   '(ns, s12) <- optFraction s11 ;;
   off <- zone s12 ;;
   if ((1 <=? mo) && (mo <=? 12) && (1 <=? d) && (d <=? daysIn mo y)
       && (h <? 24) && (mi <? 60) && (sec <? 60))%Z
   then Some {| year := y; month := mo; day := d; hour := h; minute := mi;
                second := sec; nanosecond := ns; offset := off |}
   else None)%opt.

Definition decode (j : JSON) (cur : t) : Res t :=
  match j with
  | JNull => Ok cur
  | JString s =>
      match parse s with
      | Some v => Ok v
      | None => Fail (TransportError "parsing time: not an RFC 3339 timestamp")
      end
  | _ => Fail (TransportError "parsing time: not a string")
  end.

End Timestamp.

#[export] Instance Zero_Timestamp : Zero Timestamp.t :=
  {| Timestamp.year := 1; Timestamp.month := 1; Timestamp.day := 1;
     Timestamp.hour := 0; Timestamp.minute := 0; Timestamp.second := 0;
     Timestamp.nanosecond := 0; Timestamp.offset := 0 |}.
#[export] Instance Unmarshaler_Timestamp : Unmarshaler Timestamp.t := Timestamp.decode.

(** Modelled from the spec: the package's [User] structure is declared
    outside the file. A cluster embeds "a reference to the
    creating/owning user (id, name, username, state, avatar URL, profile
    URL)" (section 3); the tags are those of the fixtures. *)
Module UserRef.

Record t : Type := {
  ID : Z;
  Name : string;
  Username : string;
  State : string;
  AvatarURL : string;
  WebURL : string
}.

Inductive field : Type :=
| F_id
| F_name
| F_username
| F_state
| F_avatar_url
| F_web_url.

Definition fields : list (string * field) :=
  [ ("id", F_id); ("name", F_name); ("username", F_username);
    ("state", F_state); ("avatar_url", F_avatar_url); ("web_url", F_web_url) ]%string.

Definition store (f : field) (j : JSON) (u : t) : Res t :=
  match f with
  | F_id =>
      (v <- unmarshalJSON j (ID u) ;;
       Ok {| ID := v; Name := Name u; Username := Username u; State := State u;
             AvatarURL := AvatarURL u; WebURL := WebURL u |})%res
  | F_name =>
      (v <- unmarshalJSON j (Name u) ;;
       Ok {| ID := ID u; Name := v; Username := Username u; State := State u;
             AvatarURL := AvatarURL u; WebURL := WebURL u |})%res
  | F_username =>
      (v <- unmarshalJSON j (Username u) ;;
       Ok {| ID := ID u; Name := Name u; Username := v; State := State u;
             AvatarURL := AvatarURL u; WebURL := WebURL u |})%res
  | F_state =>
      (v <- unmarshalJSON j (State u) ;;
       Ok {| ID := ID u; Name := Name u; Username := Username u; State := v;
             AvatarURL := AvatarURL u; WebURL := WebURL u |})%res
  | F_avatar_url =>
      (v <- unmarshalJSON j (AvatarURL u) ;;
       Ok {| ID := ID u; Name := Name u; Username := Username u; State := State u;
             AvatarURL := v; WebURL := WebURL u |})%res
  | F_web_url =>
      (v <- unmarshalJSON j (WebURL u) ;;
       Ok {| ID := ID u; Name := Name u; Username := Username u; State := State u;
             AvatarURL := AvatarURL u; WebURL := v |})%res
  end.

End UserRef.

#[export] Instance Zero_UserRef : Zero UserRef.t :=
  {| UserRef.ID := zero; UserRef.Name := zero; UserRef.Username := zero;
     UserRef.State := zero; UserRef.AvatarURL := zero; UserRef.WebURL := zero |}.
#[export] Instance Unmarshaler_UserRef : Unmarshaler UserRef.t :=
  decodeStruct "User" UserRef.fields UserRef.store.

(** Modelled from the spec: the package's [Group] structure is declared
    outside the file. A cluster embeds "a reference to the owning group
    (id, name, URL)" (section 3); the tags are those of the fixtures. *)
Module GroupRef.

Record t : Type := {
  ID : Z;
  Name : string;
  WebURL : string
}.

Inductive field : Type :=
| F_id
| F_name
| F_web_url.

Definition fields : list (string * field) :=
  [ ("id", F_id); ("name", F_name); ("web_url", F_web_url) ]%string.

Definition store (f : field) (j : JSON) (g : t) : Res t :=
  match f with
  | F_id =>
      (v <- unmarshalJSON j (ID g) ;;
       Ok {| ID := v; Name := Name g; WebURL := WebURL g |})%res
  | F_name =>
      (v <- unmarshalJSON j (Name g) ;;
       Ok {| ID := ID g; Name := v; WebURL := WebURL g |})%res
  | F_web_url =>
      (v <- unmarshalJSON j (WebURL g) ;;
       Ok {| ID := ID g; Name := Name g; WebURL := v |})%res
  end.

End GroupRef.

#[export] Instance Zero_GroupRef : Zero GroupRef.t :=
  {| GroupRef.ID := zero; GroupRef.Name := zero; GroupRef.WebURL := zero |}.
#[export] Instance Unmarshaler_GroupRef : Unmarshaler GroupRef.t :=
  decodeStruct "Group" GroupRef.fields GroupRef.store.

(** A cluster over these three types. *)
Definition ClusterValue : Type := GroupCluster Timestamp.t UserRef.t GroupRef.t.

(* ------------------------------------------------------------------ *)
(** ** The fixtures of the package's tests *)

Definition crlf : string :=
  String (ascii_of_nat 13) (String (ascii_of_nat 10) EmptyString).

Definition fixtureCaCert : string :=
  ("-----BEGIN CERTIFICATE-----" ++ crlf
   ++ "hFiK1L61owwDQYJKoZIhvcNAQELBQAw" ++ crlf
   ++ "LzEtMCsGA1UEAxMkZDA1YzQ1YjctNzdiMS00NDY0LThjNmEtMTQ0ZDJkZjM4ZDBj" ++ crlf
   ++ "MB4XDTE4MTIyNzIwMDM1MVoXDTIzMTIyNjIxMDM1MVowLzEtMCsGA1UEAxMkZDA1" ++ crlf
   ++ "YzQ1YjctNzdiMS00NDY0LThjNmEtMTQ0ZDJkZjM.......-----END CERTIFICATE-----")%string.

Definition fixtureUser : JSON :=
  JObject
    [ ("id", JNumber "1");
      ("name", JString "Administrator");
      ("username", JString "root");
      ("state", JString "active");
      ("avatar_url", JString "https://www.gravatar.com/avatar/4249f4df72b..");
      ("web_url", JString "https://gitlab.example.com/root") ]%string.

(** The body served by [TestGetGroupCluster]. *)
Definition fixtureGetCluster : JSON :=
  JObject
    [ ("id", JNumber "18");
      ("name", JString "cluster-1");
      ("domain", JString "example.com");
      ("created_at", JString "2019-01-02T20:18:12.563Z");
      ("provider_type", JString "user");
      ("platform_type", JString "kubernetes");
      ("environment_scope", JString "*");
      ("cluster_type", JString "group_type");
      ("user", fixtureUser);
      ("platform_kubernetes",
       JObject
         [ ("api_url", JString "https://104.197.68.152");
           ("authorization_type", JString "rbac");
           ("ca_cert", JString fixtureCaCert) ]);
      ("group",
       JObject
         [ ("id", JNumber "26");
           ("name", JString "group-with-clusters-api");
           ("web_url", JString "https://gitlab.example.com/group-with-clusters-api") ]) ]%string.

(** The body served by [TestListGroupClusters]: an array of one cluster,
    which has no [group] member. *)
Definition fixtureListClusters : JSON :=
  JArray
    [ JObject
        [ ("id", JNumber "18");
          ("name", JString "cluster-1");
          ("domain", JString "example.com");
          ("created_at", JString "2019-01-02T20:18:12.563Z");
          ("provider_type", JString "user");
          ("platform_type", JString "kubernetes");
          ("environment_scope", JString "*");
          ("cluster_type", JString "group_type");
          ("user", fixtureUser);
          ("platform_kubernetes",
           JObject
             [ ("api_url", JString "https://104.197.68.152");
               ("authorization_type", JString "rbac");
               ("ca_cert", JString fixtureCaCert) ]) ]%string ].

(** The body served by [TestAddGroupCluster], which has no [domain]
    member. *)
Definition fixtureAddMembers : list (string * JSON) :=
  [ ("id", JNumber "24");
    ("name", JString "cluster-5");
    ("created_at", JString "2019-01-03T21:53:40.610Z");
    ("provider_type", JString "user");
    ("platform_type", JString "kubernetes");
    ("environment_scope", JString "*");
    ("cluster_type", JString "group_type");
    ("user", fixtureUser);
    ("platform_kubernetes",
     JObject
       [ ("api_url", JString "https://35.111.51.20");
         ("authorization_type", JString "rbac");
         ("ca_cert", JString fixtureCaCert) ]);
    ("group",
     JObject
       [ ("id", JNumber "26");
         ("name", JString "group-with-clusters-api");
         ("web_url", JString "https://gitlab.example.com/root/group-with-clusters-api") ]) ]%string.

Definition fixtureAddCluster : JSON := JObject fixtureAddMembers.

(** The platform connection of the edit fixture, and what it decodes
    to. *)
Definition fixtureEditPlatform : list (string * JSON) :=
  [ ("api_url", JString "https://new-api-url.com");
    ("authorization_type", JString "rbac");
    ("ca_cert", JNull) ]%string.

Definition editedPlatform : GroupPlatformKubernetes :=
  {| APIURL := "https://new-api-url.com";
     Token := "";
     CaCert := "";
     AuthorizationType := "rbac" |}.

(** The body served by [TestEditGroupCluster], whose [ca_cert] is
    [null]. *)
Definition fixtureEditCluster : JSON :=
  JObject
    [ ("id", JNumber "24");
      ("name", JString "new-cluster-name");
      ("domain", JString "new-domain.com");
      ("created_at", JString "2019-01-03T21:53:40.610Z");
      ("provider_type", JString "user");
      ("platform_type", JString "kubernetes");
      ("environment_scope", JString "*");
      ("cluster_type", JString "group_type");
      ("user", fixtureUser);
      ("platform_kubernetes", JObject fixtureEditPlatform);
      ("group",
       JObject
         [ ("id", JNumber "26");
           ("name", JString "group-with-clusters-api");
           ("web_url", JString "https://gitlab.example.com/group-with-clusters-api") ]) ]%string.

(** The test server: one route, registered for a path; a request for it
    is answered with the route's response, any other with 404 and a body
    that is not JSON. The world is the list of the requests the server
    has received, oldest first. *)
Definition muxTransport (route : string) (answer : HTTPResponse) (req : HTTPRequest)
  (received : list HTTPRequest) : Res HTTPResponse * list HTTPRequest :=
  (Ok (if String.eqb (URL req) route then answer
       else {| StatusCode := 404; ResponseOf := MalformedBody |}),
   (received ++ [req])%list).

Definition testBaseURL : string := "/api/v4/".

Definition testService (route : string) (answer : HTTPResponse)
  : GroupClustersService (World := list HTTPRequest) :=
  specService testBaseURL (muxTransport route answer).

(** The state a test starts from: no request received, no call made. *)
Definition start {World Request OptionFunc : Type} (w : World)
  : State (World := World) (Request := Request) (OptionFunc := OptionFunc) :=
  {| world := w; calls := [] |}.

(** The answers of the test handlers: 200 with a document, 202 with no
    body ([TestDeleteGroupCluster]), and the server's 404. *)
Definition okResponse (j : JSON) : HTTPResponse :=
  {| StatusCode := 200; ResponseOf := Document j |}.

Definition acceptedResponse : HTTPResponse :=
  {| StatusCode := 202; ResponseOf := EmptyBody |}.

Definition notFoundResponse : HTTPResponse :=
  {| StatusCode := 404; ResponseOf := MalformedBody |}.

(** The services of the five tests, each with its one route. *)
Definition listService : GroupClustersService :=
  testService "/api/v4/groups/1234/clusters" (okResponse fixtureListClusters).

Definition getService : GroupClustersService :=
  testService "/api/v4/groups/1234/clusters/18" (okResponse fixtureGetCluster).

Definition editService : GroupClustersService :=
  testService "/api/v4/groups/1234/clusters/24" (okResponse fixtureEditCluster).

Definition addService : GroupClustersService :=
  testService "/api/v4/groups/1234/clusters/user" (okResponse fixtureAddCluster).

Definition deleteService : GroupClustersService :=
  testService "/api/v4/groups/1234/clusters/1" acceptedResponse.

(** The options the tests pass: structures with no field set. *)
Definition noAddOptions : AddGroupClusterOptions.t :=
  {| AddGroupClusterOptions.Name := None;
     AddGroupClusterOptions.Domain := None;
     AddGroupClusterOptions.Enabled := None;
     AddGroupClusterOptions.Managed := None;
     AddGroupClusterOptions.EnvironmentScope := None;
     AddGroupClusterOptions.PlatformKubernetes := None |}.

Definition noEditOptions : EditGroupClusterOptions.t :=
  {| EditGroupClusterOptions.Name := None;
     EditGroupClusterOptions.Domain := None;
     EditGroupClusterOptions.EnvironmentScope := None;
     EditGroupClusterOptions.PlatformKubernetes := None |}.

(** The result and the error of a run that returns a triple. *)
Definition resultOf {A B C D} (run : A * B * C * D) : A := fst (fst (fst run)).
Definition errorOf {A B C D} (run : A * B * C * D) : C := snd (fst run).

(** The state in which no request has been received and no call made. *)
Definition fresh
  : State (World := list HTTPRequest) (Request := HTTPRequest)
      (OptionFunc := RequestOption) :=
  start [].

(** The methods at the types of the tests, with the helpers modelled
    above. *)
Definition listClustersValue
  (s : GroupClustersService (World := list HTTPRequest) (Request := HTTPRequest)
         (Response := HTTPResponse) (OptionFunc := RequestOption)) :=
  ListClusters (TimeT := Timestamp.t) (UserT := UserRef.t) (GroupT := GroupRef.t) s.

Definition getClusterValue
  (s : GroupClustersService (World := list HTTPRequest) (Request := HTTPRequest)
         (Response := HTTPResponse) (OptionFunc := RequestOption)) :=
  GetCluster (TimeT := Timestamp.t) (UserT := UserRef.t) (GroupT := GroupRef.t) s.

(** The requests the tests expect the server to receive, and one for a
    path no test registers. *)
Definition listRequest : HTTPRequest :=
  {| Method := "GET"; URL := "/api/v4/groups/1234/clusters"; Body := None |}.

Definition getRequest : HTTPRequest :=
  {| Method := "GET"; URL := "/api/v4/groups/1234/clusters/18"; Body := None |}.

Definition deleteRequest : HTTPRequest :=
  {| Method := "DELETE"; URL := "/api/v4/groups/1234/clusters/1"; Body := None |}.

Definition strayGetRequest : HTTPRequest :=
  {| Method := "GET"; URL := "/api/v4/groups/1234/clusters/19"; Body := None |}.

Definition strayDeleteRequest : HTTPRequest :=
  {| Method := "DELETE"; URL := "/api/v4/groups/1234/clusters/2"; Body := None |}.

(* ------------------------------------------------------------------ *)
(** ** Vocabulary of the properties *)

Unset Implicit Arguments.

(** A group identifier the resolver accepts: an integer, or a string
    that is not empty. *)
Definition validGID (gid : GID) : Prop :=
  match gid with
  | GidInt _ => True
  | GidString s => s <> EmptyString
  | GidOther _ => False
  end.

(** The others: a value that is neither an integer nor a string, and the
    empty string. *)
Definition invalidGID (gid : GID) : Prop :=
  match gid with
  | GidInt _ => False
  | GidString s => s = EmptyString
  | GidOther _ => True
  end.

(** The string the resolver returns for a valid identifier. *)
Definition resolved (gid : GID) : string :=
  match gid with
  | GidInt n => Itoa n
  | GidString s => s
  | GidOther _ => EmptyString
  end.

(** The [{group}] segment of a path: the decimal numeral of a numeric
    identifier as it is, the escaped form of a path string. *)
Definition segment {helpers : Helpers} (gid : GID) : string :=
  match gid with
  | GidInt n => Itoa n
  | GidString s => pathEscape s
  | GidOther _ => EmptyString
  end.

(** What the specification states about the two helpers (section 4.1):
    the resolver turns an integer into its numeral, returns a non-empty
    string as it is, and rejects everything else with
    [InvalidIdentifier]; escaping leaves a numeral alone ("only the
    string form needs path-escaping"). *)
Record ResolverContract (helpers : Helpers) : Prop := {
  parseID_int : forall n, parseID (GidInt n) = Ok (Itoa n);
  parseID_string : forall s, s <> EmptyString -> parseID (GidString s) = Ok s;
  parseID_invalid : forall gid, invalidGID gid -> parseID gid = Fail InvalidIdentifier;
  pathEscape_numeral : forall n, pathEscape (Itoa n) = Itoa n
}.

(** A field is absent from, or null in, a list of members: every member
    whose key selects the field is [null]. *)
Definition absentOrNull {F} (fields : list (string * F)) (f : F)
  (ms : list (string * JSON)) : Prop :=
  Forall (fun m => findField fields (fst m) = Some f -> snd m = JNull) ms.

(** The access token an encoded edit request carries, if any. *)
Definition editTokenOf (j : JSON) : option JSON :=
  match member "platform_kubernetes_attributes" j with
  | Some pk => member "token" pk
  | None => None
  end.

(** Edit options that set nothing but a new access token. *)
Definition editWithToken : EditGroupClusterOptions.t :=
  {| EditGroupClusterOptions.Name := None;
     EditGroupClusterOptions.Domain := None;
     EditGroupClusterOptions.EnvironmentScope := None;
     EditGroupClusterOptions.PlatformKubernetes :=
       Some {| EditGroupPlatformKubernetesOptions.APIURL := None;
               EditGroupPlatformKubernetesOptions.Token := Some "rotated-token"%string;
               EditGroupPlatformKubernetesOptions.CaCert := None |} |}.

(** A document every element of which decodes into a value of type [A]
    starting from its zero value. *)
Definition decodes (A : Type) {za : Zero A} {ua : Unmarshaler A} (j : JSON) : Prop :=
  exists a : A, unmarshalJSON j zero = Ok a.

Section ServiceVocabulary.

Context {World Request Response OptionFunc : Type}.

(** The calls one method run adds to the record: one to the builder,
    with the method, the path, the payload and the options, and, when the
    builder returned a request, one dispatch of that request. *)
Definition issued {O} {mo : Marshaler O}
  (s : GroupClustersService (World := World) (Request := Request)
         (Response := Response) (OptionFunc := OptionFunc))
  (method path : string) (opt : option O) (options : list OptionFunc)
  : list (Call (Request := Request) (OptionFunc := OptionFunc)) :=
  CallNewRequest method path (option_map marshalJSON opt) options
  :: match NewRequest (client s) mo method path opt options with
     | Ok req => [CallDo req]
     | Fail _ => []
     end.

(** The dispatcher, run on [req] with target [v] in the world of [st],
    fails with [e] and hands back [resp]. *)
Definition dispatchFails {A} {ua : Unmarshaler A}
  (s : GroupClustersService (World := World) (Request := Request)
         (Response := Response) (OptionFunc := OptionFunc))
  (req : Request) (v : option A)
  (st : State (World := World) (Request := Request) (OptionFunc := OptionFunc))
  (resp : option Response) (e : Error) : Prop :=
  exists stored w, Do (client s) ua req v (world st) = ((resp, Some e, stored), w).

(** The dispatcher, run on [req] in the world of [st] with any target,
    hands back [resp] and decodes the document [j] into the target: it
    stores the decoded value, or fails with the decoder's error. *)
Definition answersWith
  (s : GroupClustersService (World := World) (Request := Request)
         (Response := Response) (OptionFunc := OptionFunc))
  (req : Request)
  (st : State (World := World) (Request := Request) (OptionFunc := OptionFunc))
  (resp : option Response) (j : JSON) : Prop :=
  forall (A : Type) (ua : Unmarshaler A) (v : A),
    fst (Do (client s) ua req (Some v) (world st))
    = match unmarshalJSON j v with
      | Ok x => (resp, None, Some x)
      | Fail e => (resp, Some e, None)
      end.

End ServiceVocabulary.

Ltac run_method :=
  unfold ListClusters, GetCluster, AddCluster, EditCluster, DeleteCluster,
         bind, ret, callNewRequest, callDo, issued; simpl.

Ltac case_NewRequest :=
  match goal with
  | |- context [NewRequest ?c ?mo ?m ?p ?o ?os] =>
      destruct (NewRequest c mo m p o os) as [?req|?e] eqn:?Hbuild; simpl
  end.

Ltac case_Do :=
  match goal with
  | |- context [Do ?c ?ua ?r ?v ?w] =>
      destruct (Do c ua r v w) as [[[?resp ?err] ?stored] ?w'] eqn:?Hdo; simpl
  end.

(* ------------------------------------------------------------------ *)
(** ** Properties of the encoders *)

Open Scope string_scope.

(** C2, as the claim states it, fails: the claim says that no access
    token can be serialized from edit options. [editWithToken] is an edit
    options value whose encoding carries one. *)
Lemma edit_options_token_counterexample :
  editTokenOf (marshalJSON editWithToken) = Some (JString "rotated-token")
  /\ ~ (forall o : EditGroupClusterOptions.t, editTokenOf (marshalJSON o) = None).
Proof.
  split; [reflexivity|].
  intro H. specialize (H editWithToken). discriminate H.
Qed.

(** C2, amended: an encoded edit request has no key besides [name],
    [domain], [environment_scope] and [platform_kubernetes_attributes];
    the platform connection under the last has no key besides [api_url],
    [token] and [ca_cert]. The access token stays editable: [token] is
    written exactly when the [Token] field is set. What the edit variant
    cannot carry is the authorization type, and the cluster's [enabled]
    and [managed] flags. *)
Theorem edit_options_fields (o : EditGroupClusterOptions.t)
  (pk : EditGroupPlatformKubernetesOptions.t) :
  incl (keysOf (marshalJSON o))
       ["name"; "domain"; "environment_scope"; "platform_kubernetes_attributes"]
  /\ member "platform_kubernetes_attributes" (marshalJSON o)
     = option_map marshalJSON (EditGroupClusterOptions.PlatformKubernetes o)
  /\ incl (keysOf (marshalJSON pk)) ["api_url"; "token"; "ca_cert"]
  /\ member "token" (marshalJSON pk)
     = option_map JString (EditGroupPlatformKubernetesOptions.Token pk)
  /\ member "authorization_type" (marshalJSON pk) = None
  /\ member "enabled" (marshalJSON o) = None
  /\ member "managed" (marshalJSON o) = None.
Proof.
  destruct o as [[n|] [d|] [e|] [p|]], pk as [[a|] [t|] [c|]];
    repeat split; try reflexivity;
    intros k Hk; cbn in Hk |- *; tauto.
Qed.

Ltac keys_included := intros k Hk; cbn in Hk |- *; tauto.

(** C7: in the encoding of add options, of edit options and of their
    platform connections, a key is present exactly when its field is
    set, and then carries the encoding of the field's content: an unset
    field leaves no trace, while a field set to the empty string or to
    [false] is written as [""] or [false]. No other key is written. *)
Theorem unset_fields_are_omitted (a : AddGroupClusterOptions.t)
  (ak : AddGroupPlatformKubernetesOptions.t) (e : EditGroupClusterOptions.t)
  (ek : EditGroupPlatformKubernetesOptions.t) :
  (member "name" (marshalJSON a)
     = option_map JString (AddGroupClusterOptions.Name a)
   /\ member "domain" (marshalJSON a)
     = option_map JString (AddGroupClusterOptions.Domain a)
   /\ member "enabled" (marshalJSON a)
     = option_map JBool (AddGroupClusterOptions.Enabled a)
   /\ member "managed" (marshalJSON a)
     = option_map JBool (AddGroupClusterOptions.Managed a)
   /\ member "environment_scope" (marshalJSON a)
     = option_map JString (AddGroupClusterOptions.EnvironmentScope a)
   /\ member "platform_kubernetes_attributes" (marshalJSON a)
     = option_map marshalJSON (AddGroupClusterOptions.PlatformKubernetes a)
   /\ incl (keysOf (marshalJSON a))
        ["name"; "domain"; "enabled"; "managed"; "environment_scope";
         "platform_kubernetes_attributes"])
  /\ (member "api_url" (marshalJSON ak)
        = option_map JString (AddGroupPlatformKubernetesOptions.APIURL ak)
      /\ member "token" (marshalJSON ak)
        = option_map JString (AddGroupPlatformKubernetesOptions.Token ak)
      /\ member "ca_cert" (marshalJSON ak)
        = option_map JString (AddGroupPlatformKubernetesOptions.CaCert ak)
      /\ member "authorization_type" (marshalJSON ak)
        = option_map JString (AddGroupPlatformKubernetesOptions.AuthorizationType ak)
      /\ incl (keysOf (marshalJSON ak))
           ["api_url"; "token"; "ca_cert"; "authorization_type"])
  /\ (member "name" (marshalJSON e)
        = option_map JString (EditGroupClusterOptions.Name e)
      /\ member "domain" (marshalJSON e)
        = option_map JString (EditGroupClusterOptions.Domain e)
      /\ member "environment_scope" (marshalJSON e)
        = option_map JString (EditGroupClusterOptions.EnvironmentScope e)
      /\ member "platform_kubernetes_attributes" (marshalJSON e)
        = option_map marshalJSON (EditGroupClusterOptions.PlatformKubernetes e)
      /\ incl (keysOf (marshalJSON e))
           ["name"; "domain"; "environment_scope"; "platform_kubernetes_attributes"])
  /\ (member "api_url" (marshalJSON ek)
        = option_map JString (EditGroupPlatformKubernetesOptions.APIURL ek)
      /\ member "token" (marshalJSON ek)
        = option_map JString (EditGroupPlatformKubernetesOptions.Token ek)
      /\ member "ca_cert" (marshalJSON ek)
        = option_map JString (EditGroupPlatformKubernetesOptions.CaCert ek)
      /\ incl (keysOf (marshalJSON ek)) ["api_url"; "token"; "ca_cert"]).
Proof.
  split; [|split; [|split]].
  - destruct a as [[n|] [d|] [en|] [m|] [s|] [p|]];
      repeat split; try reflexivity; keys_included.
  - destruct ak as [[u|] [t|] [c|] [z|]];
      repeat split; try reflexivity; keys_included.
  - destruct e as [[n|] [d|] [s|] [p|]];
      repeat split; try reflexivity; keys_included.
  - destruct ek as [[u|] [t|] [c|]];
      repeat split; try reflexivity; keys_included.
Qed.

(* ------------------------------------------------------------------ *)
(** ** Properties of the decoders *)

Lemma decodeMembers_app {T F} (fields : list (string * F))
  (store : F -> JSON -> T -> Res T) (a b : list (string * JSON)) (cur : T) :
  decodeMembers fields store (a ++ b) cur
  = bindRes (decodeMembers fields store a cur) (decodeMembers fields store b).
Proof.
  revert cur; induction a as [|[k v] a IH]; intro cur; simpl.
  - reflexivity.
  - destruct (findField fields k) as [f|]; [|apply IH].
    destruct (store f v cur) as [cur'|e]; [apply IH|reflexivity].
Qed.

(** A projection [get] that no store disturbs, except a store of a
    document other than [null] into field [f], survives the decoding of
    members among which [f] is absent or null. *)
Lemma decodeMembers_keeps {T F V} (fields : list (string * F))
  (store : F -> JSON -> T -> Res T) (get : T -> V) (f : F) :
  (forall g j c c', (g = f -> j = JNull) -> store g j c = Ok c' -> get c' = get c) ->
  forall ms c c', absentOrNull fields f ms ->
    decodeMembers fields store ms c = Ok c' -> get c' = get c.
Proof.
  intros Hstore ms; induction ms as [|[k v] ms IH]; intros c c' Habs Hdec;
    simpl in Hdec.
  - now inversion Hdec.
  - inversion Habs as [|m ms' Hm Hrest]; subst. simpl in Hm.
    destruct (findField fields k) as [g|] eqn:Hk; [|now apply IH].
    destruct (store g v c) as [c1|e] eqn:Hs; [|discriminate].
    rewrite (IH _ _ Hrest Hdec).
    apply (Hstore g v); [|exact Hs].
    intro Hg; apply Hm; now rewrite Hg.
Qed.

Lemma store_keeps_CaCert (g : GroupPlatformKubernetesField) (j : JSON)
  (k k' : GroupPlatformKubernetes) :
  (g = F_ca_cert -> j = JNull) ->
  GroupPlatformKubernetes_store g j k = Ok k' -> CaCert k' = CaCert k.
Proof.
  intros Hg Hs; destruct g;
    first
      [ rewrite (Hg eq_refl) in Hs; cbn in Hs; inversion Hs; reflexivity
      | unfold GroupPlatformKubernetes_store, bindRes in Hs;
        match type of Hs with
        | context [unmarshalJSON ?j ?x] => destruct (unmarshalJSON j x)
        end; inversion Hs; reflexivity ].
Qed.

(** The decoded sequence has one element per element of the array. *)
Lemma decodeElems_length {A} {za : Zero A} {ua : Unmarshaler A}
  (elems : list JSON) :
  forall (cur l : list A), decodeElems elems cur = Ok l -> List.length l = List.length elems.
Proof.
  induction elems as [|j js IH]; intros cur l H; simpl in H.
  - inversion H; reflexivity.
  - destruct (unmarshalJSON j (hd zero cur)) as [a|e]; [|discriminate].
    destruct (decodeElems js (tl cur)) as [l'|e] eqn:Hl; [|discriminate].
    inversion H; subst; simpl. f_equal. exact (IH _ _ Hl).
Qed.

(** An array whose elements all decode, decodes. *)
Lemma decodeElems_total {A} {za : Zero A} {ua : Unmarshaler A}
  (elems : list JSON) :
  Forall (decodes A) elems -> exists l : list A, decodeElems elems [] = Ok l.
Proof.
  induction 1 as [|j js [a Ha] _ [l Hl]]; simpl.
  - now exists [].
  - rewrite Ha, Hl. now exists (a :: l).
Qed.

Section ClusterDecoding.

Context {TimeT UserT GroupT : Type}.
Context {Zero_Time : Zero TimeT} {Unmarshaler_Time : Unmarshaler TimeT}.
Context {Zero_User : Zero UserT} {Unmarshaler_User : Unmarshaler UserT}.
Context {Zero_Group : Zero GroupT} {Unmarshaler_Group : Unmarshaler GroupT}.

Abbreviation Cluster := (GroupCluster TimeT UserT GroupT).

Lemma store_keeps_Domain (g : GroupClusterField) (j : JSON) (c c' : Cluster) :
  (g = F_domain -> j = JNull) ->
  GroupCluster_store g j c = Ok c' -> Domain c' = Domain c.
Proof.
  intros Hg Hs; destruct g;
    first
      [ rewrite (Hg eq_refl) in Hs; cbn in Hs; inversion Hs; reflexivity
      | unfold GroupCluster_store, bindRes in Hs;
        match type of Hs with
        | context [unmarshalJSON ?j ?x] => destruct (unmarshalJSON j x)
        end; inversion Hs; reflexivity ].
Qed.

(** C10: [Domain] and [CaCert] are plain strings. Decoded into a fresh
    structure, an object in which [domain] (for a cluster) or [ca_cert]
    (for a platform connection) is absent, or present only as [null],
    leaves the field at the empty string. Nor can the decoded value tell
    the three cases apart: adding, after members in which the field is
    absent or null, a member for it that is [null] or the empty string
    gives the same result as leaving it out, whatever else follows. The
    key may be spelled in any way that selects the field. *)
Theorem absent_null_and_empty_coincide :
  (forall (ms : list (string * JSON)) (c : Cluster),
      unmarshalJSON (JObject ms) zero = Ok c ->
      absentOrNull GroupCluster_fields F_domain ms ->
      Domain c = "")
  /\ (forall (ms : list (string * JSON)) (k : GroupPlatformKubernetes),
        unmarshalJSON (JObject ms) zero = Ok k ->
        absentOrNull GroupPlatformKubernetes_fields F_ca_cert ms ->
        CaCert k = "")
  /\ (forall (key : string) (ms1 ms2 : list (string * JSON)),
        findField GroupCluster_fields key = Some F_domain ->
        absentOrNull GroupCluster_fields F_domain ms1 ->
        unmarshalJSON (JObject (ms1 ++ (key, JNull) :: ms2)) (zero : Cluster)
        = unmarshalJSON (JObject (ms1 ++ ms2)) zero
        /\ unmarshalJSON (JObject (ms1 ++ (key, JString "") :: ms2)) (zero : Cluster)
           = unmarshalJSON (JObject (ms1 ++ ms2)) zero)
  /\ (forall (key : string) (ms1 ms2 : list (string * JSON)),
        findField GroupPlatformKubernetes_fields key = Some F_ca_cert ->
        absentOrNull GroupPlatformKubernetes_fields F_ca_cert ms1 ->
        unmarshalJSON (JObject (ms1 ++ (key, JNull) :: ms2))
          (zero : GroupPlatformKubernetes)
        = unmarshalJSON (JObject (ms1 ++ ms2)) zero
        /\ unmarshalJSON (JObject (ms1 ++ (key, JString "") :: ms2))
             (zero : GroupPlatformKubernetes)
           = unmarshalJSON (JObject (ms1 ++ ms2)) zero).
Proof.
  split; [|split; [|split]].
  - intros ms c Hdec Habs.
    exact (decodeMembers_keeps _ _ Domain F_domain store_keeps_Domain _ _ _ Habs Hdec).
  - intros ms k Hdec Habs.
    exact (decodeMembers_keeps _ _ CaCert F_ca_cert store_keeps_CaCert _ _ _ Habs Hdec).
  - intros key ms1 ms2 Hkey Habs.
    unfold unmarshalJSON, Unmarshaler_GroupCluster, decodeStruct.
    rewrite !decodeMembers_app; simpl; rewrite Hkey.
    destruct (decodeMembers GroupCluster_fields GroupCluster_store ms1 zero)
      as [c|e] eqn:Hd; [|split; reflexivity].
    pose proof (decodeMembers_keeps _ _ Domain F_domain store_keeps_Domain
                  _ _ _ Habs Hd) as HD.
    destruct c; simpl in *; unfold set_Domain; simpl; rewrite HD.
    split; reflexivity.
  - intros key ms1 ms2 Hkey Habs.
    unfold unmarshalJSON, Unmarshaler_GroupPlatformKubernetes, decodeStruct.
    rewrite !decodeMembers_app; simpl; rewrite Hkey.
    destruct (decodeMembers GroupPlatformKubernetes_fields
                GroupPlatformKubernetes_store ms1 zero) as [k|e] eqn:Hd;
      [|split; reflexivity].
    pose proof (decodeMembers_keeps _ _ CaCert F_ca_cert store_keeps_CaCert
                  _ _ _ Habs Hd) as HD.
    destruct k; simpl in *; rewrite HD.
    split; reflexivity.
Qed.

End ClusterDecoding.

(* ------------------------------------------------------------------ *)
(** ** Properties of the five methods, for every client *)

Section ServiceProperties.

Context {World Request Response OptionFunc : Type}.
Context {TimeT UserT GroupT : Type}.
Context {Zero_Time : Zero TimeT} {Unmarshaler_Time : Unmarshaler TimeT}.
Context {Zero_User : Zero UserT} {Unmarshaler_User : Unmarshaler UserT}.
Context {Zero_Group : Zero GroupT} {Unmarshaler_Group : Unmarshaler GroupT}.
Context {helpers : Helpers}.

Abbreviation Cluster := (GroupCluster TimeT UserT GroupT).
Abbreviation Service :=
  (GroupClustersService (World := World) (Request := Request)
     (Response := Response) (OptionFunc := OptionFunc)).
Abbreviation ServiceState :=
  (State (World := World) (Request := Request) (OptionFunc := OptionFunc)).
Abbreviation listClusters :=
  (ListClusters (TimeT := TimeT) (UserT := UserT) (GroupT := GroupT)).
Abbreviation getCluster :=
  (GetCluster (TimeT := TimeT) (UserT := UserT) (GroupT := GroupT)).
Abbreviation addCluster :=
  (AddCluster (TimeT := TimeT) (UserT := UserT) (GroupT := GroupT)).
Abbreviation editCluster :=
  (EditCluster (TimeT := TimeT) (UserT := UserT) (GroupT := GroupT)).

Lemma parseID_valid (gid : GID) :
  ResolverContract helpers -> validGID gid ->
  parseID gid = Ok (resolved gid) /\ pathEscape (resolved gid) = segment gid.
Proof.
  intros C V; destruct gid as [n|g|t]; simpl in *.
  - split; [apply (parseID_int _ C)|apply (pathEscape_numeral _ C)].
  - split; [apply (parseID_string _ C _ V)|reflexivity].
  - contradiction.
Qed.

(** C1: with helpers that meet the resolver's contract, and for a valid
    group identifier, each method calls the request builder once, with
    the verb and the relative path of the wire-protocol table, and
    dispatches the request it obtained once, and makes no other call. The
    [{group}] segment is the numeral itself for a numeric identifier and
    the escaped string for a path string. *)
Theorem wire_protocol (s : Service) (gid : GID) (cluster : Z)
  (addOpt : option AddGroupClusterOptions.t)
  (editOpt : option EditGroupClusterOptions.t)
  (options : list OptionFunc) (st : ServiceState) :
  ResolverContract helpers -> validGID gid ->
  calls (snd (listClusters s gid options st))
  = (calls st
     ++ issued s "GET" ("groups/" ++ segment gid ++ "/clusters") untypedNil options)%list
  /\ calls (snd (getCluster s gid cluster options st))
     = (calls st
        ++ issued s "GET" ("groups/" ++ segment gid ++ "/clusters/" ++ Itoa cluster)
             untypedNil options)%list
  /\ calls (snd (addCluster s gid addOpt options st))
     = (calls st
        ++ issued s "POST" ("groups/" ++ segment gid ++ "/clusters/user")
             (Some addOpt) options)%list
  /\ calls (snd (editCluster s gid cluster editOpt options st))
     = (calls st
        ++ issued s "PUT" ("groups/" ++ segment gid ++ "/clusters/" ++ Itoa cluster)
             (Some editOpt) options)%list
  /\ calls (snd (DeleteCluster s gid cluster options st))
     = (calls st
        ++ issued s "DELETE" ("groups/" ++ segment gid ++ "/clusters/" ++ Itoa cluster)
             untypedNil options)%list.
Proof.
  intros C V. destruct (parseID_valid gid C V) as [Hp He].
  run_method. rewrite Hp, He.
  repeat split; case_NewRequest; try reflexivity; case_Do;
    try (destruct err; simpl); rewrite <- app_assoc; reflexivity.
Qed.

(** C4: with a resolver that meets its contract, and for a group
    identifier that is neither an integer nor a string, or is the empty
    string, each of the five methods returns a nil result, a nil
    response and [InvalidIdentifier], and leaves the state as it was:
    the builder and the dispatcher are not called, and the world is not
    touched. *)
Theorem invalid_identifier_fails_locally (s : Service) (gid : GID) (cluster : Z)
  (addOpt : option AddGroupClusterOptions.t)
  (editOpt : option EditGroupClusterOptions.t)
  (options : list OptionFunc) (st : ServiceState) :
  ResolverContract helpers -> invalidGID gid ->
  listClusters s gid options st = ((nilSlice, None, Some InvalidIdentifier), st)
  /\ getCluster s gid cluster options st = ((None, None, Some InvalidIdentifier), st)
  /\ addCluster s gid addOpt options st = ((None, None, Some InvalidIdentifier), st)
  /\ editCluster s gid cluster editOpt options st
     = ((None, None, Some InvalidIdentifier), st)
  /\ DeleteCluster s gid cluster options st = ((None, Some InvalidIdentifier), st).
Proof.
  intros C I. run_method. rewrite (parseID_invalid _ C gid I).
  repeat split.
Qed.

(** C5: for the four methods with a typed result. Whenever the error a
    method returns is not nil, its result is nil (the nil slice for
    [ListClusters], the nil pointer for the others). And when the
    failure is the dispatcher's, that is, the identifier resolved, the
    builder returned a request, and [Do] failed on it, the method
    returns the response [Do] handed back, with [Do]'s error. *)
Theorem failure_leaves_result_nil (s : Service) (gid : GID) (cluster : Z)
  (addOpt : option AddGroupClusterOptions.t)
  (editOpt : option EditGroupClusterOptions.t)
  (options : list OptionFunc) (st : ServiceState) :
  (forall r resp e st',
      listClusters s gid options st = ((r, resp, Some e), st') -> r = nilSlice)
  /\ (forall r resp e st',
        getCluster s gid cluster options st = ((r, resp, Some e), st') -> r = None)
  /\ (forall r resp e st',
        addCluster s gid addOpt options st = ((r, resp, Some e), st') -> r = None)
  /\ (forall r resp e st',
        editCluster s gid cluster editOpt options st = ((r, resp, Some e), st') ->
        r = None)
  /\ (forall group req resp e,
        parseID gid = Ok group ->
        NewRequest (client s) _ "GET" ("groups/" ++ pathEscape group ++ "/clusters")
          untypedNil options = Ok req ->
        dispatchFails s req (Some (nilSlice : Slice (option Cluster))) st resp e ->
        fst (listClusters s gid options st) = (nilSlice, resp, Some e))
  /\ (forall group req resp e,
        parseID gid = Ok group ->
        NewRequest (client s) _ "GET"
          ("groups/" ++ pathEscape group ++ "/clusters/" ++ Itoa cluster)
          untypedNil options = Ok req ->
        dispatchFails s req (Some (Some zero : option Cluster)) st resp e ->
        fst (getCluster s gid cluster options st) = (None, resp, Some e))
  /\ (forall group req resp e,
        parseID gid = Ok group ->
        NewRequest (client s) _ "POST"
          ("groups/" ++ pathEscape group ++ "/clusters/user")
          (Some addOpt) options = Ok req ->
        dispatchFails s req (Some (zero : Cluster)) st resp e ->
        fst (addCluster s gid addOpt options st) = (None, resp, Some e))
  /\ (forall group req resp e,
        parseID gid = Ok group ->
        NewRequest (client s) _ "PUT"
          ("groups/" ++ pathEscape group ++ "/clusters/" ++ Itoa cluster)
          (Some editOpt) options = Ok req ->
        dispatchFails s req (Some (zero : Cluster)) st resp e ->
        fst (editCluster s gid cluster editOpt options st) = (None, resp, Some e)).
Proof.
  repeat split.
  1-4: intros r resp e st'; run_method;
       destruct (parseID gid) as [group|e0]; simpl;
       [ case_NewRequest;
         [ case_Do; destruct err; simpl; intro H; inversion H; reflexivity
         | intro H; inversion H; reflexivity ]
       | intro H; inversion H; reflexivity ].
  all: intros group req resp e Hp Hb [stored [w Hd]]; run_method;
       rewrite Hp; simpl in Hb |- *; rewrite Hb; simpl; rewrite Hd; reflexivity.
Qed.

(** C9: [GetCluster] issued twice in a row against an unchanged server,
    the second time in the state the first left behind: its two calls
    on record, the world as its dispatch left it. The identifier
    resolves, the request is built, and the server answers that request
    in both states with the same response [resp] and the same body [j].
    Then each of the two calls returns what the body decides: the
    cluster [j] decodes to from a pointer to a zero cluster, with [resp]
    and a nil error, or a nil cluster with [resp] and the decoder's
    error. So the two results are equal: nothing of the first call
    reaches the result of the second. *)
Theorem get_twice_same_result (s : Service) (gid : GID) (cluster : Z)
  (options : list OptionFunc) (st : ServiceState) (group : string)
  (req : Request) (resp : option Response) (j : JSON) :
  parseID gid = Ok group ->
  NewRequest (client s) _ "GET"
    ("groups/" ++ pathEscape group ++ "/clusters/" ++ Itoa cluster)
    untypedNil options = Ok req ->
  answersWith s req st resp j ->
  answersWith s req (snd (getCluster s gid cluster options st)) resp j ->
  let decoded : option Cluster * option Response * option Error :=
    match unmarshalJSON j (Some zero : option Cluster) with
    | Ok pc => (pc, resp, None)
    | Fail e => (None, resp, Some e)
    end in
  fst (getCluster s gid cluster options st) = decoded
  /\ fst (getCluster s gid cluster options (snd (getCluster s gid cluster options st)))
     = decoded
  /\ fst (getCluster s gid cluster options (snd (getCluster s gid cluster options st)))
     = fst (getCluster s gid cluster options st).
Proof.
  intros Hp Hb H1 H2 decoded; subst decoded.
  assert (Hrun : forall st0 : ServiceState,
             answersWith s req st0 resp j ->
             fst (getCluster s gid cluster options st0)
             = match unmarshalJSON j (Some zero : option Cluster) with
               | Ok pc => (pc, resp, None)
               | Fail e => (None, resp, Some e)
               end).
  { intros st0 Hans. pose proof (Hans _ _ (Some zero : option Cluster)) as Ha.
    run_method. rewrite Hp; simpl. simpl in Hb; rewrite Hb; simpl.
    destruct (Do (client s) _ req (Some (Some zero)) (world st0))
      as [[[resp' err] stored] w]; simpl in Ha |- *.
    destruct (unmarshalJSON j (Some zero : option Cluster));
      inversion Ha; subst; reflexivity. }
  rewrite (Hrun _ H2), (Hrun _ H1). repeat split.
Qed.

End ServiceProperties.

(* ------------------------------------------------------------------ *)
(** ** The modelled helpers meet the resolver's contract *)

Lemma specPathEscape_digits (u : Decimal.uint) :
  specPathEscape (NilEmpty.string_of_uint u) = NilEmpty.string_of_uint u.
Proof.
  induction u; simpl; try rewrite IHu; reflexivity.
Qed.

Lemma specPathEscape_numeral (u : Decimal.uint) :
  specPathEscape (NilZero.string_of_uint u) = NilZero.string_of_uint u.
Proof.
  destruct u; try reflexivity;
    match goal with
    | |- context [NilZero.string_of_uint ?d] => exact (specPathEscape_digits d)
    end.
Qed.

Lemma specPathEscape_Itoa (n : Z) : specPathEscape (Itoa n) = Itoa n.
Proof.
  unfold Itoa, NilZero.string_of_int.
  destruct (Z.to_int n) as [u|u].
  - apply specPathEscape_numeral.
  - change (String "-" (specPathEscape (NilZero.string_of_uint u))
            = String "-" (NilZero.string_of_uint u)).
    now rewrite specPathEscape_numeral.
Qed.

Lemma specHelpers_contract : ResolverContract specHelpers.
Proof.
  constructor.
  - reflexivity.
  - intros [|c s] H; [contradiction|reflexivity].
  - intros [n|s|t] H; simpl in *; [contradiction|now subst|reflexivity].
  - exact specPathEscape_Itoa.
Qed.

(* ------------------------------------------------------------------ *)
(** ** The modelled dispatcher answers with what the server sends *)

(** The modelled dispatcher decodes what the server sends. *)
Lemma specDo_answersWith {World : Type} (baseURL : string)
  (transport : HTTPRequest -> World -> Res HTTPResponse * World)
  (req : HTTPRequest)
  (st : State (World := World) (Request := HTTPRequest) (OptionFunc := RequestOption))
  (resp : HTTPResponse) (w : World) (j : JSON) :
  transport req (world st) = (Ok resp, w) ->
  is2xx (StatusCode resp) = true ->
  ResponseOf resp = Document j ->
  answersWith (specService baseURL transport) req st (Some resp) j.
Proof.
  intros Ht Hs Hb A ua v. simpl. unfold specDo. rewrite Ht, Hs, Hb.
  destruct (unmarshalJSON j v); reflexivity.
Qed.

Section UnchangedServer.

Context {World : Type}.
Context {TimeT UserT GroupT : Type}.
Context {Zero_Time : Zero TimeT} {Unmarshaler_Time : Unmarshaler TimeT}.
Context {Zero_User : Zero UserT} {Unmarshaler_User : Unmarshaler UserT}.
Context {Zero_Group : Zero GroupT} {Unmarshaler_Group : Unmarshaler GroupT}.

Variable baseURL : string.
Variable transport : HTTPRequest -> World -> Res HTTPResponse * World.

(** An unchanged server, seen from the modelled client. Whatever else a
    round trip changes in the world, if the transport answers the request
    of a [GetCluster] with the same 2xx response and the same document
    in the world the call starts from and in the world its round trip
    leaves, then the dispatcher answers with that response and that
    document in the state before the call and in the state after it. *)
Lemma unchanged_server_answers (gid : GID) (cluster : Z)
  (options : list RequestOption)
  (st : State (World := World) (Request := HTTPRequest) (OptionFunc := RequestOption))
  (group : string) (req : HTTPRequest) (resp : HTTPResponse) (w1 w2 : World)
  (j : JSON) :
  specParseID gid = Ok group ->
  specNewRequest baseURL Marshaler_Untyped "GET"
    ("groups/" ++ specPathEscape group ++ "/clusters/" ++ Itoa cluster)
    untypedNil options = Ok req ->
  transport req (world st) = (Ok resp, w1) ->
  transport req w1 = (Ok resp, w2) ->
  is2xx (StatusCode resp) = true ->
  ResponseOf resp = Document j ->
  answersWith (specService baseURL transport) req st (Some resp) j
  /\ answersWith (specService baseURL transport) req
       (snd (GetCluster (TimeT := TimeT) (UserT := UserT) (GroupT := GroupT)
               (helpers := specHelpers) (specService baseURL transport)
               gid cluster options st))
       (Some resp) j.
Proof.
  intros Hp Hb Ht1 Ht2 Hs Hd. split.
  - exact (specDo_answersWith _ _ _ _ _ _ _ Ht1 Hs Hd).
  - apply (specDo_answersWith _ _ _ _ _ w2 _); [|exact Hs|exact Hd].
    run_method. rewrite Hp; simpl. simpl in Hb; rewrite Hb; simpl.
    unfold specDo. rewrite Ht1, Hs, Hd.
    destruct (unmarshalJSON j (Some zero)); simpl; exact Ht2.
Qed.

End UnchangedServer.

(* ------------------------------------------------------------------ *)
(** ** Properties of the five methods over the modelled client *)

Section SpecProperties.

Context {World : Type}.
Variable baseURL : string.
Variable transport : HTTPRequest -> World -> Res HTTPResponse * World.

Abbreviation SpecState :=
  (State (World := World) (Request := HTTPRequest) (OptionFunc := RequestOption)).

(** C3: [DeleteCluster] for a valid group identifier, when the request
    is built and the server answers it. If the status is 202 the method
    returns that response and a nil error, whatever the body, an empty
    one included; if the status is outside 2xx it returns the response
    together with an error, which is not nil. *)
Theorem delete_reports_status (gid : GID) (cluster : Z)
  (options : list RequestOption) (st : SpecState) (req : HTTPRequest)
  (resp : HTTPResponse) (w : World) :
  validGID gid ->
  specNewRequest baseURL _ "DELETE"
    ("groups/" ++ segment gid ++ "/clusters/" ++ Itoa cluster) untypedNil options
  = Ok req ->
  transport req (world st) = (Ok resp, w) ->
  (StatusCode resp = 202%Z ->
   fst (DeleteCluster (specService baseURL transport) gid cluster options st)
   = (Some resp, None))
  /\ (is2xx (StatusCode resp) = false ->
      fst (DeleteCluster (specService baseURL transport) gid cluster options st)
      = (Some resp, Some (HTTPError (StatusCode resp)))).
Proof.
  intros V Hb Ht.
  destruct (parseID_valid gid specHelpers_contract V) as [Hp He].
  run_method. simpl in Hp, He, Hb. rewrite Hp; simpl. rewrite He, Hb; simpl.
  unfold specDo. rewrite Ht.
  split; intro Hs; rewrite Hs; reflexivity.
Qed.

Section Decoded.

Context {TimeT UserT GroupT : Type}.
Context {Zero_Time : Zero TimeT} {Unmarshaler_Time : Unmarshaler TimeT}.
Context {Zero_User : Zero UserT} {Unmarshaler_User : Unmarshaler UserT}.
Context {Zero_Group : Zero GroupT} {Unmarshaler_Group : Unmarshaler GroupT}.

Abbreviation Cluster := (GroupCluster TimeT UserT GroupT).

(** C6: [ListClusters] for a valid group identifier, when the request is
    built and the server answers it with a 2xx status and a JSON array
    whose elements decode as clusters. The method calls the builder once,
    with GET and [groups/{id}/clusters], dispatches the request once, and
    returns, with a nil error, a sequence that has exactly as many
    elements as the array; for the empty array, the empty sequence (and
    not the nil slice). *)
Theorem list_length_is_array_length (gid : GID) (options : list RequestOption)
  (st : SpecState) (req : HTTPRequest) (resp : HTTPResponse) (w : World)
  (elems : list JSON) :
  validGID gid ->
  specNewRequest baseURL _ "GET" ("groups/" ++ segment gid ++ "/clusters")
    untypedNil options = Ok req ->
  transport req (world st) = (Ok resp, w) ->
  is2xx (StatusCode resp) = true ->
  ResponseOf resp = Document (JArray elems) ->
  Forall (decodes (option Cluster)) elems ->
  exists l : list (option Cluster),
    ListClusters (specService baseURL transport) gid options st
    = ((mkSlice l, Some resp, None),
       {| world := w;
          calls := calls st
                   ++ [CallNewRequest "GET" ("groups/" ++ segment gid ++ "/clusters")
                         None options;
                       CallDo req] |})
    /\ List.length l = List.length elems
    /\ (elems = [] -> l = []).
Proof.
  intros V Hb Ht Hs Hbody Hall.
  destruct (parseID_valid gid specHelpers_contract V) as [Hp He].
  destruct (decodeElems_total elems Hall) as [l Hl].
  exists l.
  run_method. simpl in Hp, He, Hb. rewrite Hp; simpl. rewrite He, Hb; simpl.
  unfold specDo. rewrite Ht, Hs, Hbody.
  unfold unmarshalJSON, Unmarshaler_slice, decodeSlice; simpl.
  unfold unmarshalJSON in Hl. rewrite Hl; simpl.
  rewrite <- app_assoc.
  split; [reflexivity|].
  split; [exact (decodeElems_length elems _ _ Hl)|].
  intro E; subst; simpl in Hl; now inversion Hl.
Qed.

End Decoded.

(** C8: [GetCluster] for a valid group identifier and any cluster ID (18
    in the test), when the request is built and the server answers it
    with a 2xx status and the fixture of [TestGetGroupCluster], which
    contains ["id":18] and ["domain":"example.com"]. The method returns a
    cluster with [ID] 18 and [Domain] "example.com", the response, and a
    nil error. *)
Theorem get_cluster_decodes_fixture (gid : GID) (cluster : Z)
  (options : list RequestOption) (st : SpecState) (req : HTTPRequest)
  (resp : HTTPResponse) (w : World) :
  validGID gid ->
  specNewRequest baseURL _ "GET"
    ("groups/" ++ segment gid ++ "/clusters/" ++ Itoa cluster) untypedNil options
  = Ok req ->
  transport req (world st) = (Ok resp, w) ->
  is2xx (StatusCode resp) = true ->
  ResponseOf resp = Document fixtureGetCluster ->
  exists c : ClusterValue,
    fst (GetCluster (specService baseURL transport) gid cluster options st)
    = (Some c, Some resp, None)
    /\ ID c = 18%Z
    /\ Domain c = "example.com".
Proof.
  intros V Hb Ht Hs Hbody.
  destruct (parseID_valid gid specHelpers_contract V) as [Hp He].
  run_method. simpl in Hp, He, Hb. rewrite Hp; simpl. rewrite He, Hb; simpl.
  unfold specDo. rewrite Ht, Hs, Hbody.
  match goal with
  | |- context [unmarshalJSON ?j ?c] =>
      let r := eval vm_compute in (unmarshalJSON j c) in
      change (unmarshalJSON j c) with r
  end.
  simpl. eexists; split; [reflexivity|split; reflexivity].
Qed.

End SpecProperties.

(* ------------------------------------------------------------------ *)
(** ** The properties at the fixtures of the tests *)

(** [wire_protocol] at the test server, for a path string and for a
    numeric identifier. *)
Lemma wire_protocol_witness :
  calls (snd (listClustersValue listService (GidString "gitlab-org/cluster.tools")
                [] fresh))
  = [ CallNewRequest "GET" "groups/gitlab-org%2Fcluster%2Etools/clusters" None [];
      CallDo {| Method := "GET";
                URL := "/api/v4/groups/gitlab-org%2Fcluster%2Etools/clusters";
                Body := None |} ]
  /\ calls (snd (DeleteCluster deleteService (GidInt 1234) 1 [] fresh))
     = [ CallNewRequest "DELETE" "groups/1234/clusters/1" None [];
         CallDo deleteRequest ].
Proof.
  split.
  - refine (proj1 (wire_protocol (TimeT := Timestamp.t) (UserT := UserRef.t)
                     (GroupT := GroupRef.t) listService
                     (GidString "gitlab-org/cluster.tools") 18 None None [] fresh
                     specHelpers_contract _)).
    simpl; discriminate.
  - refine (proj2 (proj2 (proj2 (proj2
             (wire_protocol (TimeT := Timestamp.t) (UserT := UserRef.t)
                (GroupT := GroupRef.t) deleteService (GidInt 1234) 1 None None []
                fresh specHelpers_contract _))))).
    exact I.
Defined.

(** [invalid_identifier_fails_locally] at the empty string and at a
    value that is neither an integer nor a string. *)
Lemma invalid_identifier_witness :
  listClustersValue listService (GidString "") [] fresh
  = ((nilSlice, None, Some InvalidIdentifier), fresh)
  /\ DeleteCluster deleteService (GidOther "float64") 1 [] fresh
     = ((None, Some InvalidIdentifier), fresh).
Proof.
  split.
  - refine (proj1 (invalid_identifier_fails_locally (TimeT := Timestamp.t)
                     (UserT := UserRef.t) (GroupT := GroupRef.t) listService
                     (GidString "") 18 None None [] fresh specHelpers_contract _)).
    reflexivity.
  - refine (proj2 (proj2 (proj2 (proj2
             (invalid_identifier_fails_locally (TimeT := Timestamp.t)
                (UserT := UserRef.t) (GroupT := GroupRef.t) deleteService
                (GidOther "float64") 1 None None [] fresh specHelpers_contract _))))).
    exact I.
Defined.

(** [delete_reports_status] at [TestDeleteGroupCluster] (202, no body),
    and at a cluster the server does not know (404). *)
Lemma delete_accepted_witness :
  fst (DeleteCluster deleteService (GidInt 1234) 1 [] fresh)
  = (Some acceptedResponse, None)
  /\ fst (DeleteCluster deleteService (GidInt 1234) 2 [] fresh)
     = (Some notFoundResponse, Some (HTTPError 404)).
Proof.
  split.
  - refine (proj1 (delete_reports_status testBaseURL
                     (muxTransport "/api/v4/groups/1234/clusters/1" acceptedResponse)
                     (GidInt 1234) 1 [] fresh deleteRequest acceptedResponse
                     [deleteRequest] I eq_refl eq_refl) eq_refl).
  - refine (proj2 (delete_reports_status testBaseURL
                     (muxTransport "/api/v4/groups/1234/clusters/1" acceptedResponse)
                     (GidInt 1234) 2 [] fresh strayDeleteRequest notFoundResponse
                     [strayDeleteRequest] I eq_refl eq_refl) eq_refl).
Defined.

(** [failure_leaves_result_nil] at a [GetCluster] the server answers
    with 404: the result is nil and the response is returned. *)
Lemma failure_witness :
  fst (getClusterValue getService (GidInt 1234) 19 [] fresh)
  = (None, Some notFoundResponse, Some (HTTPError 404)).
Proof.
  refine (proj1 (proj2 (proj2 (proj2 (proj2 (proj2
            (failure_leaves_result_nil (TimeT := Timestamp.t) (UserT := UserRef.t)
               (GroupT := GroupRef.t) getService (GidInt 1234) 19 None None []
               fresh))))))
            "1234" strayGetRequest (Some notFoundResponse) (HTTPError 404)
            eq_refl eq_refl _).
  exists None, [strayGetRequest].
  reflexivity.
Defined.

(** [get_twice_same_result] at [TestGetGroupCluster]: the test server
    answers a request by its path alone, so the second request is
    answered as the first was. *)
Lemma get_twice_witness :
  fst (GetCluster (TimeT := Timestamp.t) (UserT := UserRef.t) (GroupT := GroupRef.t)
         getService (GidInt 1234) 18 []
         (snd (GetCluster (TimeT := Timestamp.t) (UserT := UserRef.t)
                 (GroupT := GroupRef.t) getService (GidInt 1234) 18 [] fresh)))
  = fst (GetCluster (TimeT := Timestamp.t) (UserT := UserRef.t) (GroupT := GroupRef.t)
           getService (GidInt 1234) 18 [] fresh).
Proof.
  destruct (unchanged_server_answers (TimeT := Timestamp.t) (UserT := UserRef.t)
              (GroupT := GroupRef.t) testBaseURL
              (muxTransport "/api/v4/groups/1234/clusters/18"
                 (okResponse fixtureGetCluster))
              (GidInt 1234) 18 [] fresh "1234" getRequest
              (okResponse fixtureGetCluster) [getRequest] [getRequest; getRequest]
              fixtureGetCluster eq_refl eq_refl eq_refl eq_refl eq_refl eq_refl)
    as [Hfirst Hsecond].
  exact (proj2 (proj2 (get_twice_same_result (TimeT := Timestamp.t)
                         (UserT := UserRef.t) (GroupT := GroupRef.t)
                         (helpers := specHelpers) getService (GidInt 1234) 18 []
                         fresh "1234" getRequest
                         (Some (okResponse fixtureGetCluster)) fixtureGetCluster
                         eq_refl eq_refl Hfirst Hsecond))).
Defined.

(** [list_length_is_array_length] at [TestListGroupClusters]: one
    request received, one cluster returned. *)
Lemma list_fixture_witness :
  exists l : list (option ClusterValue),
    listClustersValue listService (GidInt 1234) [] fresh
    = ((mkSlice l, Some (okResponse fixtureListClusters), None),
       {| world := [listRequest];
          calls := [CallNewRequest "GET" "groups/1234/clusters" None [];
                    CallDo listRequest] |})
    /\ List.length l = 1.
Proof.
  assert (Hall : Forall (decodes (option ClusterValue))
                   [JObject (match fixtureListClusters with
                             | JArray (JObject ms :: _) => ms
                             | _ => []
                             end)]).
  { repeat constructor. eexists. vm_compute. reflexivity. }
  destruct (list_length_is_array_length testBaseURL
              (muxTransport "/api/v4/groups/1234/clusters"
                 (okResponse fixtureListClusters))
              (GidInt 1234) [] fresh listRequest (okResponse fixtureListClusters)
              [listRequest] _ I eq_refl eq_refl eq_refl eq_refl Hall)
    as [l [Hrun [Hlen _]]].
  exists l. split; [exact Hrun|exact Hlen].
Defined.

(** [get_cluster_decodes_fixture] at [TestGetGroupCluster]. *)
Lemma get_fixture_witness :
  exists c : ClusterValue,
    fst (getClusterValue getService (GidInt 1234) 18 [] fresh)
    = (Some c, Some (okResponse fixtureGetCluster), None)
    /\ ID c = 18%Z
    /\ Domain c = "example.com".
Proof.
  exact (get_cluster_decodes_fixture testBaseURL
           (muxTransport "/api/v4/groups/1234/clusters/18"
              (okResponse fixtureGetCluster))
           (GidInt 1234) 18 [] fresh getRequest (okResponse fixtureGetCluster)
           [getRequest] I eq_refl eq_refl eq_refl eq_refl).
Defined.

(** [absent_null_and_empty_coincide] at the fixtures: the platform
    connection of [TestEditGroupCluster], whose [ca_cert] is [null], and
    the cluster of [TestAddGroupCluster], which has no [domain]. *)
Lemma null_ca_cert_witness :
  (unmarshalJSON (JObject fixtureEditPlatform) zero = Ok editedPlatform
   /\ absentOrNull GroupPlatformKubernetes_fields F_ca_cert fixtureEditPlatform
   /\ CaCert editedPlatform = "")
  /\ (exists c : ClusterValue,
        unmarshalJSON fixtureAddCluster zero = Ok c
        /\ absentOrNull GroupCluster_fields F_domain fixtureAddMembers
        /\ ID c = 24%Z
        /\ Domain c = "").
Proof.
  split.
  - assert (Hd : unmarshalJSON (JObject fixtureEditPlatform) zero = Ok editedPlatform)
      by reflexivity.
    assert (Ha : absentOrNull GroupPlatformKubernetes_fields F_ca_cert
                   fixtureEditPlatform).
    { repeat constructor; simpl; intro H; first [discriminate H | reflexivity]. }
    split; [exact Hd|split; [exact Ha|]].
    exact (proj1 (proj2 (absent_null_and_empty_coincide (TimeT := Timestamp.t)
                           (UserT := UserRef.t) (GroupT := GroupRef.t)))
             fixtureEditPlatform editedPlatform Hd Ha).
  - assert (Ha : absentOrNull GroupCluster_fields F_domain fixtureAddMembers).
    { repeat constructor; simpl; intro H; discriminate H. }
    destruct (unmarshalJSON fixtureAddCluster (zero : ClusterValue)) as [c|e] eqn:Hd;
      [|vm_compute in Hd; discriminate Hd].
    exists c. split; [reflexivity|split; [exact Ha|split]].
    + vm_compute in Hd. inversion Hd. reflexivity.
    + exact (proj1 (absent_null_and_empty_coincide (TimeT := Timestamp.t)
                      (UserT := UserRef.t) (GroupT := GroupRef.t))
               fixtureAddMembers c Hd Ha).
Defined.

(** [TestAddGroupCluster]: the cluster returned has [ID] 24, and, the
    fixture having no [domain], an empty [Domain]; the options with no
    field set went out as an empty object. *)
Example add_fixture_result :
  let run := AddCluster (TimeT := Timestamp.t) (UserT := UserRef.t)
               (GroupT := GroupRef.t) addService (GidInt 1234) (Some noAddOptions)
               [] fresh in
  option_map ID (resultOf run) = Some 24%Z
  /\ option_map Domain (resultOf run) = Some ""
  /\ errorOf run = None
  /\ world (snd run)
     = [{| Method := "POST"; URL := "/api/v4/groups/1234/clusters/user";
           Body := Some (JObject []) |}].
Proof. vm_compute. repeat split. Qed.

(** [TestEditGroupCluster]: the cluster returned carries the new name
    and domain, and an empty [CaCert] for the fixture's [null]. *)
Example edit_fixture_result :
  let run := EditCluster (TimeT := Timestamp.t) (UserT := UserRef.t)
               (GroupT := GroupRef.t) editService (GidInt 1234) 24
               (Some noEditOptions) [] fresh in
  option_map ID (resultOf run) = Some 24%Z
  /\ option_map Name (resultOf run) = Some "new-cluster-name"
  /\ option_map Domain (resultOf run) = Some "new-domain.com"
  /\ option_map (fun c => option_map CaCert (PlatformKubernetes c)) (resultOf run)
     = Some (Some "")
  /\ errorOf run = None.
Proof. vm_compute. repeat split. Qed.

(* ------------------------------------------------------------------ *)
(** ** Vocabulary of the further properties *)

From Stdlib Require Import DecimalZ DecimalPos.

(** An option that rejects every request, and its error. *)
Definition optionError : Error := TransportError "option rejected the request".

Definition failingOption : RequestOption := fun _ => Fail optionError.

(** An array of a [null] and of an object that sets only [id]. *)
Definition twoElements : JSON :=
  JArray [JNull; JObject [("id", JNumber "7")]]%string.

(** An object that sets only [id]. *)
Definition onlyID : JSON := JObject [("id", JNumber "18")]%string.

(** A document that is neither [null] nor an integer literal that fits
    an [int]; one that is neither [null] nor a string. *)
Definition notAnInt (v : JSON) : Prop :=
  match v with
  | JNull => False
  | JNumber lit => parseInt lit = None
  | _ => True
  end.

Definition notAString (v : JSON) : Prop :=
  match v with
  | JNull => False
  | JString _ => False
  | _ => True
  end.

(** The fields of a cluster that are Go strings. *)
Definition isStringField (f : GroupClusterField) : bool :=
  match f with
  | F_name | F_domain | F_provider_type | F_platform_type
  | F_environment_scope | F_cluster_type => true
  | _ => false
  end.



Section ServiceObservations.

Context {World Request Response OptionFunc : Type}.

(** The builder calls of a call record, each as its verb and path, and
    the number of dispatches in it. *)
Fixpoint builds (l : list (Call (Request := Request) (OptionFunc := OptionFunc)))
  : list (string * string) :=
  match l with
  | [] => []
  | CallNewRequest method path _ _ :: rest => (method, path) :: builds rest
  | CallDo _ :: rest => builds rest
  end.

Fixpoint dispatches (l : list (Call (Request := Request) (OptionFunc := OptionFunc)))
  : nat :=
  match l with
  | [] => 0
  | CallNewRequest _ _ _ _ :: rest => dispatches rest
  | CallDo _ :: rest => S (dispatches rest)
  end.

(** From [st] to [st'] a method made at most one round trip. What it
    added to the record is, in this order, nothing, or one builder call,
    or one builder call followed by one dispatch: never a dispatch that
    no builder call precedes, never a second call of either kind. Unless
    the dispatch was made the world is as it was. *)
Definition atMostOneRoundTrip
  (st st' : State (World := World) (Request := Request) (OptionFunc := OptionFunc))
  : Prop :=
  exists l,
    calls st' = (calls st ++ l)%list
    /\ match l with
       | [] => world st' = world st
       | [CallNewRequest _ _ _ _] => world st' = world st
       | [CallNewRequest _ _ _ _; CallDo _] => True
       | _ => False
       end.

End ServiceObservations.

(* ------------------------------------------------------------------ *)
(** ** Further properties of the five methods, for every client *)


Lemma append_inv_head (p a b : string) : (p ++ a = p ++ b)%string -> a = b.
Proof.
  induction p as [|c p IH]; simpl; intro H; [exact H|].
  inversion H; auto.
Qed.

Lemma to_int_not_nil (n : Z) :
  Z.to_int n <> Decimal.Pos Decimal.Nil /\ Z.to_int n <> Decimal.Neg Decimal.Nil.
Proof.
  destruct n as [|p|p]; simpl; split; try discriminate;
    intro H; inversion H as [H'];
    exact (DecimalPos.Unsigned.to_uint_nonnil p H').
Qed.

(** Distinct integers print as distinct numerals. *)
Lemma Itoa_inj (a b : Z) : Itoa a = Itoa b -> a = b.
Proof.
  unfold Itoa; intro H.
  apply DecimalZ.to_int_inj.
  destruct (to_int_not_nil a) as [Ha1 Ha2], (to_int_not_nil b) as [Hb1 Hb2].
  pose proof (NilZero.isi _ Ha1 Ha2) as Ia.
  pose proof (NilZero.isi _ Hb1 Hb2) as Ib.
  rewrite H in Ia. rewrite Ia in Ib. now inversion Ib.
Qed.

Section FurtherServiceProperties.

Context {World Request Response OptionFunc : Type}.
Context {TimeT UserT GroupT : Type}.
Context {Zero_Time : Zero TimeT} {Unmarshaler_Time : Unmarshaler TimeT}.
Context {Zero_User : Zero UserT} {Unmarshaler_User : Unmarshaler UserT}.
Context {Zero_Group : Zero GroupT} {Unmarshaler_Group : Unmarshaler GroupT}.
Context {helpers : Helpers}.

Abbreviation Cluster := (GroupCluster TimeT UserT GroupT).
Abbreviation Service :=
  (GroupClustersService (World := World) (Request := Request)
     (Response := Response) (OptionFunc := OptionFunc)).
Abbreviation ServiceState :=
  (State (World := World) (Request := Request) (OptionFunc := OptionFunc)).
Abbreviation listClusters :=
  (ListClusters (TimeT := TimeT) (UserT := UserT) (GroupT := GroupT)).
Abbreviation getCluster :=
  (GetCluster (TimeT := TimeT) (UserT := UserT) (GroupT := GroupT)).
Abbreviation addCluster :=
  (AddCluster (TimeT := TimeT) (UserT := UserT) (GroupT := GroupT)).
Abbreviation editCluster :=
  (EditCluster (TimeT := TimeT) (UserT := UserT) (GroupT := GroupT)).

(** X1: when the identifier resolves and the request builder fails, each
    of the five methods returns a nil result, a nil response and the
    builder's error, having made the one builder call and no dispatch:
    the world is as it was. *)
Theorem builder_failure_stops_method (s : Service) (gid : GID) (cluster : Z)
  (addOpt : option AddGroupClusterOptions.t)
  (editOpt : option EditGroupClusterOptions.t)
  (options : list OptionFunc) (st : ServiceState) (group : string) (e : Error) :
  parseID gid = Ok group ->
  (NewRequest (client s) _ "GET" ("groups/" ++ pathEscape group ++ "/clusters")
     untypedNil options = Fail e ->
   listClusters s gid options st
   = ((nilSlice, None, Some e),
      {| world := world st;
         calls := calls st
                  ++ [CallNewRequest "GET"
                        ("groups/" ++ pathEscape group ++ "/clusters") None options] |}))
  /\ (NewRequest (client s) _ "GET"
        ("groups/" ++ pathEscape group ++ "/clusters/" ++ Itoa cluster)
        untypedNil options = Fail e ->
      getCluster s gid cluster options st
      = ((None, None, Some e),
         {| world := world st;
            calls := calls st
                     ++ [CallNewRequest "GET"
                           ("groups/" ++ pathEscape group ++ "/clusters/"
                            ++ Itoa cluster) None options] |}))
  /\ (NewRequest (client s) _ "POST"
        ("groups/" ++ pathEscape group ++ "/clusters/user")
        (Some addOpt) options = Fail e ->
      addCluster s gid addOpt options st
      = ((None, None, Some e),
         {| world := world st;
            calls := calls st
                     ++ [CallNewRequest "POST"
                           ("groups/" ++ pathEscape group ++ "/clusters/user")
                           (Some (marshalJSON addOpt)) options] |}))
  /\ (NewRequest (client s) _ "PUT"
        ("groups/" ++ pathEscape group ++ "/clusters/" ++ Itoa cluster)
        (Some editOpt) options = Fail e ->
      editCluster s gid cluster editOpt options st
      = ((None, None, Some e),
         {| world := world st;
            calls := calls st
                     ++ [CallNewRequest "PUT"
                           ("groups/" ++ pathEscape group ++ "/clusters/"
                            ++ Itoa cluster) (Some (marshalJSON editOpt)) options] |}))
  /\ (NewRequest (client s) _ "DELETE"
        ("groups/" ++ pathEscape group ++ "/clusters/" ++ Itoa cluster)
        untypedNil options = Fail e ->
      DeleteCluster s gid cluster options st
      = ((None, Some e),
         {| world := world st;
            calls := calls st
                     ++ [CallNewRequest "DELETE"
                           ("groups/" ++ pathEscape group ++ "/clusters/"
                            ++ Itoa cluster) None options] |})).
Proof.
  intro Hp. run_method. rewrite Hp; simpl.
  repeat split; intro Hb; simpl in Hb; rewrite Hb; reflexivity.
Qed.

Lemma builds_app (a b : list (Call (Request := Request) (OptionFunc := OptionFunc))) :
  builds (a ++ b) = (builds a ++ builds b)%list.
Proof.
  induction a as [|[m p o os|r] a IH]; simpl; [reflexivity|now rewrite IH|exact IH].
Qed.

(** The order of the calls gives their number: a record of that shape
    holds at most one builder call, no more dispatches than builder
    calls, and its last entry is the dispatch if there is one. *)
Lemma atMostOneRoundTrip_counts (st st' : ServiceState) :
  atMostOneRoundTrip st st' ->
  exists l,
    calls st' = (calls st ++ l)%list
    /\ List.length (builds l) <= 1
    /\ dispatches l <= List.length (builds l)
    /\ (dispatches l = 0 -> world st' = world st)
    /\ (forall req rest, l <> CallDo req :: rest).
Proof.
  intros [l [Hc Hl]]. exists l. split; [exact Hc|].
  destruct l as [|[m p o os|r] [|[m' p' o' os'|r'] [|c l]]];
    try contradiction; simpl; repeat split; try lia; try discriminate; auto.
Qed.

(** X2: whatever the identifier, the options and the client, a run of
    any of the five methods adds to the record nothing, or one builder
    call, or one builder call and then one dispatch: at most one call of
    each kind, the dispatch only after the build. It leaves the world
    alone unless it dispatched: there is no retry and no second
    request. *)
Theorem at_most_one_round_trip (s : Service) (gid : GID) (cluster : Z)
  (addOpt : option AddGroupClusterOptions.t)
  (editOpt : option EditGroupClusterOptions.t)
  (options : list OptionFunc) (st : ServiceState) :
  atMostOneRoundTrip st (snd (listClusters s gid options st))
  /\ atMostOneRoundTrip st (snd (getCluster s gid cluster options st))
  /\ atMostOneRoundTrip st (snd (addCluster s gid addOpt options st))
  /\ atMostOneRoundTrip st (snd (editCluster s gid cluster editOpt options st))
  /\ atMostOneRoundTrip st (snd (DeleteCluster s gid cluster options st)).
Proof.
  unfold atMostOneRoundTrip. run_method.
  destruct (parseID gid) as [group|e0]; simpl.
  - (split; [|split; [|split; [|split]]]);
      (case_NewRequest;
       [ case_Do; try (destruct err; simpl); eexists [_; _]
       | eexists [_] ]);
      simpl; rewrite <- ?app_assoc; simpl;
      (split; [reflexivity|simpl; auto]).
  - (split; [|split; [|split; [|split]]]); exists []; simpl; rewrite app_nil_r;
      (split; reflexivity).
Qed.


(** X3: [AddCluster] and [EditCluster] never return a nil cluster
    together with a nil error: the pointer they return is the one they
    allocated, which [Do] cannot set to nil. *)
Theorem add_edit_result_present_on_success (s : Service) (gid : GID) (cluster : Z)
  (addOpt : option AddGroupClusterOptions.t)
  (editOpt : option EditGroupClusterOptions.t)
  (options : list OptionFunc) (st : ServiceState) :
  (errorOf (addCluster s gid addOpt options st) = None ->
   resultOf (addCluster s gid addOpt options st) <> None)
  /\ (errorOf (editCluster s gid cluster editOpt options st) = None ->
      resultOf (editCluster s gid cluster editOpt options st) <> None).
Proof.
  unfold errorOf, resultOf. run_method.
  destruct (parseID gid) as [group|e0]; simpl; [|split; discriminate].
  split; (case_NewRequest; [|discriminate]); case_Do;
    destruct err; simpl; discriminate.
Qed.

Ltac use_answer H v :=
  let Ha := fresh "Ha" in
  pose proof (H _ _ v) as Ha; simpl in Ha;
  match type of Ha with
  | fst (Do ?c ?ua ?r ?t ?w) = _ =>
      destruct (Do c ua r t w) as [[[?resp ?err] ?stored] ?w']
  end;
  simpl in Ha |- *.

(** X4: what the methods return when the identifier resolves, the
    request is built, and the dispatcher answers with a body that is
    the document [null], decoded into the target by the rules above.
    [ListClusters] returns the nil slice; [GetCluster], which hands [Do]
    the address of its pointer, returns a nil cluster with a nil error;
    [AddCluster] and [EditCluster], which hand [Do] the pointer itself,
    return a cluster at its zero value. *)
Theorem null_body_results (s : Service) (gid : GID) (cluster : Z)
  (addOpt : option AddGroupClusterOptions.t)
  (editOpt : option EditGroupClusterOptions.t)
  (options : list OptionFunc) (st : ServiceState) (group : string)
  (resp : option Response) :
  parseID gid = Ok group ->
  (forall req,
      NewRequest (client s) _ "GET" ("groups/" ++ pathEscape group ++ "/clusters")
        untypedNil options = Ok req ->
      answersWith s req st resp JNull ->
      fst (listClusters s gid options st) = (nilSlice, resp, None))
  /\ (forall req,
        NewRequest (client s) _ "GET"
          ("groups/" ++ pathEscape group ++ "/clusters/" ++ Itoa cluster)
          untypedNil options = Ok req ->
        answersWith s req st resp JNull ->
        fst (getCluster s gid cluster options st) = (None, resp, None))
  /\ (forall req,
        NewRequest (client s) _ "POST"
          ("groups/" ++ pathEscape group ++ "/clusters/user")
          (Some addOpt) options = Ok req ->
        answersWith s req st resp JNull ->
        fst (addCluster s gid addOpt options st) = (Some zero, resp, None))
  /\ (forall req,
        NewRequest (client s) _ "PUT"
          ("groups/" ++ pathEscape group ++ "/clusters/" ++ Itoa cluster)
          (Some editOpt) options = Ok req ->
        answersWith s req st resp JNull ->
        fst (editCluster s gid cluster editOpt options st) = (Some zero, resp, None)).
Proof.
  intro Hp. run_method. rewrite Hp; simpl.
  split; [|split; [|split]]; intros req Hb Hans; simpl in Hb; rewrite Hb; simpl.
  - use_answer Hans (nilSlice : Slice (option Cluster)).
    inversion Ha; subst; reflexivity.
  - use_answer Hans (Some zero : option Cluster).
    inversion Ha; subst; reflexivity.
  - use_answer Hans (zero : Cluster).
    inversion Ha; subst; reflexivity.
  - use_answer Hans (zero : Cluster).
    inversion Ha; subst; reflexivity.
Qed.

Lemma decodeElems_Forall2 {A} {za : Zero A} {ua : Unmarshaler A}
  (elems : list JSON) (l : list A) :
  Forall2 (fun j a => unmarshalJSON j zero = Ok a) elems l ->
  decodeElems elems [] = Ok l.
Proof.
  induction 1 as [|j a js l Hj _ IH]; simpl; [reflexivity|].
  rewrite Hj, IH. reflexivity.
Qed.

Lemma decodeElems_Exists {A} {za : Zero A} {ua : Unmarshaler A}
  (elems : list JSON) :
  Exists (fun j => exists e, unmarshalJSON j (zero : A) = Fail e) elems ->
  exists e, decodeElems elems ([] : list A) = Fail e.
Proof.
  induction 1 as [j js [e He]|j js _ [e IH]]; simpl.
  - rewrite He. now exists e.
  - destruct (unmarshalJSON j zero) as [a|e']; [rewrite IH; now exists e|now exists e'].
Qed.

(** X5: [ListClusters], when the identifier resolves, the request is
    built, and the dispatcher answers with an array decoded into the
    target. If every element decodes, from a nil pointer, to the element
    of [l] at the same position, the method returns exactly [l], in the
    order of the array, a [null] element as a nil pointer; if some
    element does not decode, it returns the nil slice with the response
    and an error. *)
Theorem list_preserves_order (s : Service) (gid : GID)
  (options : list OptionFunc) (st : ServiceState) (group : string)
  (req : Request) (resp : option Response) (elems : list JSON) :
  parseID gid = Ok group ->
  NewRequest (client s) _ "GET" ("groups/" ++ pathEscape group ++ "/clusters")
    untypedNil options = Ok req ->
  answersWith s req st resp (JArray elems) ->
  (forall l : list (option Cluster),
      Forall2 (fun j a => unmarshalJSON j zero = Ok a) elems l ->
      fst (listClusters s gid options st) = (mkSlice l, resp, None))
  /\ (Exists (fun j => exists e, unmarshalJSON j (zero : option Cluster) = Fail e)
        elems ->
      exists e, fst (listClusters s gid options st) = (nilSlice, resp, Some e)).
Proof.
  intros Hp Hb Hans. run_method. rewrite Hp; simpl. simpl in Hb; rewrite Hb; simpl.
  pose proof (Hans _ _ (nilSlice : Slice (option Cluster))) as Ha.
  unfold unmarshalJSON at 1, Unmarshaler_slice, decodeSlice in Ha; simpl in Ha.
  destruct (Do (client s) _ req (Some nilSlice) (world st))
    as [[[resp' err] stored] w]; simpl in Ha |- *.
  split.
  - intros l Hl. rewrite (decodeElems_Forall2 elems l Hl) in Ha.
    inversion Ha; subst; reflexivity.
  - intro Hex. destruct (decodeElems_Exists elems Hex) as [e He].
    rewrite He in Ha. inversion Ha; subst. now exists e.
Qed.

Ltac builds_of_run :=
  run_method;
  repeat match goal with
         | |- context [NewRequest ?c ?mo ?m ?p ?o ?os] =>
             destruct (NewRequest c mo m p o os) as [?req|?e]; simpl
         | |- context [Do ?c ?ua ?r ?v ?w] =>
             destruct (Do c ua r v w) as [[[?resp [?err|]] ?stored] ?w']; simpl
         end;
  rewrite !builds_app; simpl; rewrite ?app_nil_r.

(** X6: the resources the methods address, for an identifier that
    resolves. [GetCluster], [EditCluster] and [DeleteCluster] build the
    same verb and path for two cluster IDs only when the IDs are equal;
    [ListClusters] never builds what [GetCluster] builds; and for one
    cluster ID the three methods build the same path. *)
Theorem cluster_paths_are_distinct (s : Service) (gid : GID) (a b : Z)
  (editOpt : option EditGroupClusterOptions.t)
  (options : list OptionFunc) (st : ServiceState) (group : string) :
  parseID gid = Ok group ->
  (builds (calls (snd (getCluster s gid a options st)))
   = builds (calls (snd (getCluster s gid b options st))) -> a = b)
  /\ (builds (calls (snd (editCluster s gid a editOpt options st)))
      = builds (calls (snd (editCluster s gid b editOpt options st))) -> a = b)
  /\ (builds (calls (snd (DeleteCluster s gid a options st)))
      = builds (calls (snd (DeleteCluster s gid b options st))) -> a = b)
  /\ builds (calls (snd (listClusters s gid options st)))
     <> builds (calls (snd (getCluster s gid a options st)))
  /\ map snd (builds (calls (snd (getCluster s gid a options st))))
     = map snd (builds (calls (snd (editCluster s gid a editOpt options st))))
  /\ map snd (builds (calls (snd (getCluster s gid a options st))))
     = map snd (builds (calls (snd (DeleteCluster s gid a options st)))).
Proof.
  intro Hp.
  assert (Hinj : forall (m : string) (x y : Z),
             (builds (calls st)
              ++ [(m, ("groups/" ++ pathEscape group ++ "/clusters/" ++ Itoa x)%string)])%list
             = (builds (calls st)
                ++ [(m, ("groups/" ++ pathEscape group ++ "/clusters/" ++ Itoa y)%string)])%list ->
             x = y).
  { intros m x y H. apply app_inv_head in H. inversion H as [H'].
    apply append_inv_head in H'. inversion H' as [H''].
    apply Itoa_inj. exact H''. }
  split; [|split; [|split; [|split; [|split]]]].
  - unfold GetCluster. rewrite Hp. builds_of_run; apply Hinj.
  - unfold EditCluster. rewrite Hp. builds_of_run; apply Hinj.
  - unfold DeleteCluster. rewrite Hp. builds_of_run; apply Hinj.
  - unfold ListClusters, GetCluster. rewrite Hp. builds_of_run;
      intro H; apply app_inv_head in H; inversion H as [H'];
      apply append_inv_head in H'; discriminate H'.
  - unfold GetCluster, EditCluster. rewrite Hp. builds_of_run;
      rewrite !map_app; reflexivity.
  - unfold GetCluster, DeleteCluster. rewrite Hp. builds_of_run;
      rewrite !map_app; reflexivity.
Qed.

(** X7: [GetCluster], [AddCluster] and [EditCluster], when the
    identifier resolves, the request is built, and the dispatcher
    answers with a body other than [null], decoded into the target. All
    three return what that body decodes to from a cluster at its zero
    value, with the response and a nil error, or a nil cluster with the
    response and the decoder's error. *)
Theorem body_decodes_from_zero (s : Service) (gid : GID) (cluster : Z)
  (addOpt : option AddGroupClusterOptions.t)
  (editOpt : option EditGroupClusterOptions.t)
  (options : list OptionFunc) (st : ServiceState) (group : string)
  (resp : option Response) (j : JSON) :
  parseID gid = Ok group ->
  j <> JNull ->
  let decoded : option Cluster * option Response * option Error :=
    match unmarshalJSON j (zero : Cluster) with
    | Ok c => (Some c, resp, None)
    | Fail e => (None, resp, Some e)
    end in
  (forall req,
      NewRequest (client s) _ "GET"
        ("groups/" ++ pathEscape group ++ "/clusters/" ++ Itoa cluster)
        untypedNil options = Ok req ->
      answersWith s req st resp j ->
      fst (getCluster s gid cluster options st) = decoded)
  /\ (forall req,
        NewRequest (client s) _ "POST"
          ("groups/" ++ pathEscape group ++ "/clusters/user")
          (Some addOpt) options = Ok req ->
        answersWith s req st resp j ->
        fst (addCluster s gid addOpt options st) = decoded)
  /\ (forall req,
        NewRequest (client s) _ "PUT"
          ("groups/" ++ pathEscape group ++ "/clusters/" ++ Itoa cluster)
          (Some editOpt) options = Ok req ->
        answersWith s req st resp j ->
        fst (editCluster s gid cluster editOpt options st) = decoded).
Proof.
  intros Hp Hj decoded; subst decoded. run_method. rewrite Hp; simpl.
  split; [|split]; intros req Hb Hans; simpl in Hb; rewrite Hb; simpl.
  - pose proof (Hans _ _ (Some zero : option Cluster)) as Ha.
    assert (Hptr : unmarshalJSON j (Some zero : option Cluster)
                   = match unmarshalJSON j (zero : Cluster) with
                     | Ok a => Ok (Some a)
                     | Fail e => Fail e
                     end)
      by (destruct j; try reflexivity; now contradiction Hj).
    rewrite Hptr in Ha.
    destruct (Do (client s) _ req (Some (Some zero)) (world st))
      as [[[resp' err] stored] w]; simpl in Ha |- *.
    destruct (unmarshalJSON j (zero : Cluster));
      inversion Ha; subst; reflexivity.
  - pose proof (Hans _ _ (zero : Cluster)) as Ha.
    destruct (Do (client s) _ req (Some zero) (world st))
      as [[[resp' err] stored] w]; simpl in Ha |- *.
    destruct (unmarshalJSON j (zero : Cluster));
      inversion Ha; subst; reflexivity.
  - pose proof (Hans _ _ (zero : Cluster)) as Ha.
    destruct (Do (client s) _ req (Some zero) (world st))
      as [[[resp' err] stored] w]; simpl in Ha |- *.
    destruct (unmarshalJSON j (zero : Cluster));
      inversion Ha; subst; reflexivity.
Qed.

End FurtherServiceProperties.

(* ------------------------------------------------------------------ *)
(** ** Further properties of the decoders and encoders *)

Lemma decodeMembers_preserves {T F} (fields : list (string * F))
  (store : F -> JSON -> T -> Res T) (P : T -> Prop) (f : F) :
  (forall g j c c', (g = f -> j = JNull) -> store g j c = Ok c' -> P c -> P c') ->
  forall ms c c', absentOrNull fields f ms ->
    decodeMembers fields store ms c = Ok c' -> P c -> P c'.
Proof.
  intros Hstore ms; induction ms as [|[k v] ms IH]; intros c c' Habs Hdec Hc;
    simpl in Hdec.
  - now inversion Hdec; subst.
  - inversion Habs as [|m ms' Hm Hrest]; subst. simpl in Hm.
    destruct (findField fields k) as [g|] eqn:Hk; [|now apply (IH c)].
    destruct (store g v c) as [c1|e] eqn:Hs; [|discriminate].
    apply (IH c1 c' Hrest Hdec).
    apply (Hstore g v c c1); [|exact Hs|exact Hc].
    intro Hg; apply Hm; now rewrite Hg.
Qed.

Section FurtherClusterDecoding.

Context {TimeT UserT GroupT : Type}.
Context {Zero_Time : Zero TimeT} {Unmarshaler_Time : Unmarshaler TimeT}.
Context {Zero_User : Zero UserT} {Unmarshaler_User : Unmarshaler UserT}.
Context {Zero_Group : Zero GroupT} {Unmarshaler_Group : Unmarshaler GroupT}.

Abbreviation Cluster := (GroupCluster TimeT UserT GroupT).

Ltac store_cases Hg Hs :=
  first
    [ rewrite (Hg eq_refl) in Hs; cbn in Hs; inversion Hs; subst; simpl; auto; fail
    | unfold GroupCluster_store, bindRes in Hs;
      match type of Hs with
      | context [unmarshalJSON ?j ?x] => destruct (unmarshalJSON j x)
      end; inversion Hs; subst; simpl; auto ].

Lemma unmarshal_cluster_object (ms : list (string * JSON)) (cur : Cluster) :
  unmarshalJSON (JObject ms) cur
  = decodeMembers GroupCluster_fields GroupCluster_store ms cur.
Proof. reflexivity. Qed.

Lemma store_keeps_ID (g : GroupClusterField) (j : JSON) (c c' : Cluster) :
  (g = F_id -> j = JNull) -> GroupCluster_store g j c = Ok c' -> ID c' = ID c.
Proof. intros Hg Hs; destruct g; store_cases Hg Hs. Qed.

Lemma store_keeps_Name (g : GroupClusterField) (j : JSON) (c c' : Cluster) :
  (g = F_name -> j = JNull) -> GroupCluster_store g j c = Ok c' -> Name c' = Name c.
Proof. intros Hg Hs; destruct g; store_cases Hg Hs. Qed.

(** X8: the value a decoded cluster holds in [ID], [Name] or [Domain]
    is that of the last member whose key selects the field and whose
    value is not [null]: members before it, whatever they are, and
    [null] members after it make no difference. *)
Theorem last_member_decides_field (key : string) (ms1 ms2 : list (string * JSON))
  (cur c : Cluster) :
  (forall lit n,
      findField GroupCluster_fields key = Some F_id ->
      parseInt lit = Some n ->
      absentOrNull GroupCluster_fields F_id ms2 ->
      unmarshalJSON (JObject (ms1 ++ (key, JNumber lit) :: ms2)) cur = Ok c ->
      ID c = n)
  /\ (forall s,
        findField GroupCluster_fields key = Some F_name ->
        absentOrNull GroupCluster_fields F_name ms2 ->
        unmarshalJSON (JObject (ms1 ++ (key, JString s) :: ms2)) cur = Ok c ->
        Name c = s)
  /\ (forall s,
        findField GroupCluster_fields key = Some F_domain ->
        absentOrNull GroupCluster_fields F_domain ms2 ->
        unmarshalJSON (JObject (ms1 ++ (key, JString s) :: ms2)) cur = Ok c ->
        Domain c = s).
Proof.
  split; [|split].
  - intros lit n Hk Hn Habs Hd.
    rewrite unmarshal_cluster_object, decodeMembers_app in Hd; simpl in Hd.
    rewrite Hk in Hd.
    destruct (decodeMembers GroupCluster_fields GroupCluster_store ms1 cur)
      as [c1|e]; simpl in Hd; [|discriminate].
    unfold unmarshalJSON, Unmarshaler_int, decodeInt in Hd; rewrite Hn in Hd;
      simpl in Hd.
    rewrite (decodeMembers_keeps _ _ ID F_id store_keeps_ID _ _ _ Habs Hd).
    reflexivity.
  - intros s Hk Habs Hd.
    rewrite unmarshal_cluster_object, decodeMembers_app in Hd; simpl in Hd.
    rewrite Hk in Hd.
    destruct (decodeMembers GroupCluster_fields GroupCluster_store ms1 cur)
      as [c1|e]; simpl in Hd; [|discriminate].
    rewrite (decodeMembers_keeps _ _ Name F_name store_keeps_Name _ _ _ Habs Hd).
    reflexivity.
  - intros s Hk Habs Hd.
    rewrite unmarshal_cluster_object, decodeMembers_app in Hd; simpl in Hd.
    rewrite Hk in Hd.
    destruct (decodeMembers GroupCluster_fields GroupCluster_store ms1 cur)
      as [c1|e]; simpl in Hd; [|discriminate].
    rewrite (decodeMembers_keeps _ _ Domain F_domain store_keeps_Domain _ _ _ Habs Hd).
    reflexivity.
Qed.

(** X9: a member whose key selects [ID] and whose value is neither
    [null] nor an integer literal that fits an [int], or whose key
    selects one of the six string fields and whose value is neither
    [null] nor a string, makes the decoding of the whole object fail,
    wherever the member stands. *)
Theorem mistyped_member_fails (key : string) (v : JSON)
  (ms1 ms2 : list (string * JSON)) (cur : Cluster) :
  (findField GroupCluster_fields key = Some F_id -> notAnInt v ->
   exists e, unmarshalJSON (JObject (ms1 ++ (key, v) :: ms2)) cur = Fail e)
  /\ (forall f, findField GroupCluster_fields key = Some f ->
        isStringField f = true -> notAString v ->
        exists e, unmarshalJSON (JObject (ms1 ++ (key, v) :: ms2)) cur = Fail e).
Proof.
  split.
  - intros Hk Hv. rewrite unmarshal_cluster_object, decodeMembers_app; simpl.
    rewrite Hk.
    destruct (decodeMembers GroupCluster_fields GroupCluster_store ms1 cur)
      as [c1|e]; simpl; [|now exists e].
    unfold unmarshalJSON, Unmarshaler_int, decodeInt.
    destruct v; simpl in Hv; try contradiction; try rewrite Hv; simpl; eauto.
  - intros f Hk Hf Hv. rewrite unmarshal_cluster_object, decodeMembers_app; simpl.
    rewrite Hk.
    destruct (decodeMembers GroupCluster_fields GroupCluster_store ms1 cur)
      as [c1|e]; simpl; [|now exists e].
    destruct f; try discriminate Hf; simpl;
      unfold unmarshalJSON, Unmarshaler_string, decodeString;
      destruct v; simpl in Hv; try contradiction; simpl; eauto.
Qed.

Lemma store_keeps_nil_Group (g : GroupClusterField) (j : JSON) (c c' : Cluster) :
  (g = F_group -> j = JNull) -> GroupCluster_store g j c = Ok c' ->
  Group c = None -> Group c' = None.
Proof. intros Hg Hs; destruct g; store_cases Hg Hs. Qed.

Lemma store_keeps_nil_User (g : GroupClusterField) (j : JSON) (c c' : Cluster) :
  (g = F_user -> j = JNull) -> GroupCluster_store g j c = Ok c' ->
  User c = None -> User c' = None.
Proof. intros Hg Hs; destruct g; store_cases Hg Hs. Qed.

Lemma store_keeps_nil_PlatformKubernetes (g : GroupClusterField) (j : JSON)
  (c c' : Cluster) :
  (g = F_platform_kubernetes -> j = JNull) -> GroupCluster_store g j c = Ok c' ->
  PlatformKubernetes c = None -> PlatformKubernetes c' = None.
Proof. intros Hg Hs; destruct g; store_cases Hg Hs. Qed.

Lemma store_keeps_nil_CreatedAt (g : GroupClusterField) (j : JSON) (c c' : Cluster) :
  (g = F_created_at -> j = JNull) -> GroupCluster_store g j c = Ok c' ->
  CreatedAt c = None -> CreatedAt c' = None.
Proof. intros Hg Hs; destruct g; store_cases Hg Hs. Qed.

(** X10: in a decoded cluster, a [null] member for [Group], [User],
    [PlatformKubernetes] or [CreatedAt] leaves the pointer nil, also
    when an earlier member had set it, as long as no later member sets
    it again. (For the string fields a [null] changes nothing: see
    C10.) *)
Theorem null_clears_pointer_fields (key : string) (ms1 ms2 : list (string * JSON))
  (cur c : Cluster) :
  unmarshalJSON (JObject (ms1 ++ (key, JNull) :: ms2)) cur = Ok c ->
  (findField GroupCluster_fields key = Some F_group ->
   absentOrNull GroupCluster_fields F_group ms2 -> Group c = None)
  /\ (findField GroupCluster_fields key = Some F_user ->
      absentOrNull GroupCluster_fields F_user ms2 -> User c = None)
  /\ (findField GroupCluster_fields key = Some F_platform_kubernetes ->
      absentOrNull GroupCluster_fields F_platform_kubernetes ms2 ->
      PlatformKubernetes c = None)
  /\ (findField GroupCluster_fields key = Some F_created_at ->
      absentOrNull GroupCluster_fields F_created_at ms2 -> CreatedAt c = None).
Proof.
  rewrite unmarshal_cluster_object, decodeMembers_app; simpl.
  destruct (decodeMembers GroupCluster_fields GroupCluster_store ms1 cur)
    as [c1|e]; simpl.
  2: { destruct (findField GroupCluster_fields key); discriminate. }
  intro Hd.
  split; [|split; [|split]]; intros Hk Habs; rewrite Hk in Hd; cbn in Hd.
  - exact (decodeMembers_preserves _ _ (fun x => Group x = None) F_group
             store_keeps_nil_Group _ _ _ Habs Hd eq_refl).
  - exact (decodeMembers_preserves _ _ (fun x => User x = None) F_user
             store_keeps_nil_User _ _ _ Habs Hd eq_refl).
  - exact (decodeMembers_preserves _ _ (fun x => PlatformKubernetes x = None)
             F_platform_kubernetes store_keeps_nil_PlatformKubernetes
             _ _ _ Habs Hd eq_refl).
  - exact (decodeMembers_preserves _ _ (fun x => CreatedAt x = None) F_created_at
             store_keeps_nil_CreatedAt _ _ _ Habs Hd eq_refl).
Qed.

(** X11: a member whose key selects no field is skipped, whatever its
    value: the object decodes as it does without the member, for a
    cluster and for a platform connection. The keys
    [platform_kubernetes_attributes], [enabled] and [managed], which the
    option structures write, select no field of [GroupCluster]. *)
Theorem unknown_members_are_ignored (key : string) (v : JSON)
  (ms1 ms2 : list (string * JSON)) (cur : Cluster) (k : GroupPlatformKubernetes) :
  (findField GroupCluster_fields key = None ->
   unmarshalJSON (JObject (ms1 ++ (key, v) :: ms2)) cur
   = unmarshalJSON (JObject (ms1 ++ ms2)) cur)
  /\ (findField GroupPlatformKubernetes_fields key = None ->
      unmarshalJSON (JObject (ms1 ++ (key, v) :: ms2)) k
      = unmarshalJSON (JObject (ms1 ++ ms2)) k)
  /\ findField GroupCluster_fields "platform_kubernetes_attributes" = None
  /\ findField GroupCluster_fields "enabled" = None
  /\ findField GroupCluster_fields "managed" = None.
Proof.
  split; [|split; [|repeat split]].
  - intro Hk. rewrite !unmarshal_cluster_object.
    rewrite !decodeMembers_app; simpl; rewrite Hk. reflexivity.
  - intro Hk. unfold unmarshalJSON, Unmarshaler_GroupPlatformKubernetes, decodeStruct.
    rewrite !decodeMembers_app; simpl; rewrite Hk. reflexivity.
Qed.

End FurtherClusterDecoding.

Ltac digit_step d p zk pk IH :=
  change (parseDigits (NilEmpty.string_of_uint d) (10 * Z.pos p + zk)%Z
          = Some (Z.pos (Pos.of_uint_acc d pk)));
  replace (10 * Z.pos p + zk)%Z with (Z.pos pk) by lia;
  apply IH.

Lemma parseDigits_acc (d : Decimal.uint) (p : positive) :
  parseDigits (NilEmpty.string_of_uint d) (Z.pos p)
  = Some (Z.pos (Pos.of_uint_acc d p)).
Proof.
  revert p; induction d; intro p.
  - reflexivity.
  - digit_step d p 0%Z (10 * p)%positive IHd.
  - digit_step d p 1%Z (1 + 10 * p)%positive IHd.
  - digit_step d p 2%Z (2 + 10 * p)%positive IHd.
  - digit_step d p 3%Z (3 + 10 * p)%positive IHd.
  - digit_step d p 4%Z (4 + 10 * p)%positive IHd.
  - digit_step d p 5%Z (5 + 10 * p)%positive IHd.
  - digit_step d p 6%Z (6 + 10 * p)%positive IHd.
  - digit_step d p 7%Z (7 + 10 * p)%positive IHd.
  - digit_step d p 8%Z (8 + 10 * p)%positive IHd.
  - digit_step d p 9%Z (9 + 10 * p)%positive IHd.
Qed.

Lemma parseDigits_uint (d : Decimal.uint) :
  parseDigits (NilEmpty.string_of_uint d) 0 = Some (Z.of_N (Pos.of_uint d)).
Proof.
  induction d.
  - reflexivity.
  - exact IHd.
  - exact (parseDigits_acc d 1).
  - exact (parseDigits_acc d 2).
  - exact (parseDigits_acc d 3).
  - exact (parseDigits_acc d 4).
  - exact (parseDigits_acc d 5).
  - exact (parseDigits_acc d 6).
  - exact (parseDigits_acc d 7).
  - exact (parseDigits_acc d 8).
  - exact (parseDigits_acc d 9).
Qed.

Lemma parseUint_numeral (d : Decimal.uint) :
  parseUint (NilZero.string_of_uint d) = Some (Z.of_N (Pos.of_uint d)).
Proof.
  destruct d; try reflexivity;
    match goal with
    | |- context [NilZero.string_of_uint ?x] =>
        change (NilZero.string_of_uint x) with (NilEmpty.string_of_uint x);
        pose proof (parseDigits_uint x) as H
    end; simpl in H |- *; exact H.
Qed.

Lemma parseInt_Itoa (n : Z) :
  parseInt (Itoa n) = if inInt64 n then Some n else None.
Proof.
  unfold Itoa. pose proof (DecimalZ.of_to n) as Hn.
  destruct (Z.to_int n) as [d|d] eqn:E; simpl in Hn.
  - unfold NilZero.string_of_int, parseInt.
    pose proof (parseUint_numeral d) as Hd.
    unfold Z.of_uint in Hn. rewrite Hn in Hd.
    assert (Hm : match NilZero.string_of_uint d with
                 | String "-" rest => option_map Z.opp (parseUint rest)
                 | String "+" rest => parseUint rest
                 | _ => parseUint (NilZero.string_of_uint d)
                 end = parseUint (NilZero.string_of_uint d)).
    { destruct d; reflexivity. }
    rewrite Hm, Hd. reflexivity.
  - unfold NilZero.string_of_int, parseInt.
    pose proof (parseUint_numeral d) as Hd.
    unfold Z.of_uint in Hn.
    change (match option_map Z.opp (parseUint (NilZero.string_of_uint d)) with
            | Some n0 => if inInt64 n0 then Some n0 else None
            | None => None
            end = (if inInt64 n then Some n else None)).
    rewrite Hd; simpl. rewrite Hn. reflexivity.
Qed.

(** X12: the numeral the methods print for a cluster ID with [%d],
    read as the number literal of an [int] field such as [ID], decodes
    to the same integer exactly when the integer fits 64 bits, and is a
    type error otherwise. *)
Theorem printed_id_reads_back (n cur : Z) :
  decodeInt (JNumber (Itoa n)) cur
  = if inInt64 n then Ok n else Fail (typeError "int").
Proof.
  unfold decodeInt. rewrite parseInt_Itoa. destruct (inInt64 n); reflexivity.
Qed.

Lemma member_In (key : string) (ms : list (string * JSON)) (v : JSON) :
  member key (JObject ms) = Some v -> In v (map snd ms).
Proof.
  simpl. induction ms as [|[k x] ms IH]; simpl; [discriminate|].
  destruct (String.eqb k key); [intro H; inversion H; now left|].
  intro H; right; exact (IH H).
Qed.

Ltac no_null :=
  let H := fresh "H" in
  intro H; apply member_In in H; cbn in H;
  repeat (destruct H as [H|H]; try discriminate H);
  try contradiction.

(** X13: no member of the encoding of add options, of edit options, or
    of their platform connections, is ever [null]: a field is written
    with a string, a boolean or an object, or not at all. In particular
    no edit options value encodes [ca_cert] as [null]. *)
Theorem options_never_encode_null (key : string)
  (a : AddGroupClusterOptions.t) (ak : AddGroupPlatformKubernetesOptions.t)
  (e : EditGroupClusterOptions.t) (ek : EditGroupPlatformKubernetesOptions.t) :
  member key (marshalJSON a) <> Some JNull
  /\ member key (marshalJSON ak) <> Some JNull
  /\ member key (marshalJSON e) <> Some JNull
  /\ member key (marshalJSON ek) <> Some JNull.
Proof.
  split; [|split; [|split]].
  - destruct a as [[n|] [d|] [en|] [m|] [s|] [p|]]; no_null.
  - destruct ak as [[u|] [t|] [c|] [z|]]; no_null.
  - destruct e as [[n|] [d|] [s|] [p|]]; no_null.
  - destruct ek as [[u|] [t|] [c|]]; no_null.
Qed.

(* ------------------------------------------------------------------ *)
(** ** The further properties at the test server *)


Lemma onlyID_not_null : onlyID <> JNull.
Proof. discriminate. Qed.

(** [builder_failure_stops_method] at a [GetCluster] given an option
    that rejects the request. *)
Lemma builder_failure_witness :
  getClusterValue getService (GidInt 1234) 18 [failingOption] fresh
  = ((None, None, Some optionError),
     {| world := [];
        calls := [CallNewRequest "GET" "groups/1234/clusters/18" None
                    [failingOption]] |}).
Proof.
  exact (proj1 (proj2 (builder_failure_stops_method (TimeT := Timestamp.t)
                         (UserT := UserRef.t) (GroupT := GroupRef.t) getService
                         (GidInt 1234) 18 None None [failingOption] fresh "1234"
                         optionError eq_refl)) eq_refl).
Defined.

(** [add_edit_result_present_on_success] at [TestAddGroupCluster]. *)
Lemma add_result_present_witness :
  resultOf (AddCluster (TimeT := Timestamp.t) (UserT := UserRef.t)
              (GroupT := GroupRef.t) addService (GidInt 1234) (Some noAddOptions)
              [] fresh) <> None.
Proof.
  apply (proj1 (add_edit_result_present_on_success (TimeT := Timestamp.t)
                  (UserT := UserRef.t) (GroupT := GroupRef.t) addService
                  (GidInt 1234) 24 (Some noAddOptions) None [] fresh)).
  vm_compute. reflexivity.
Defined.

(** [null_body_results] at a test server that answers 200 with the body
    [null]. *)
Lemma null_body_witness :
  fst (getClusterValue (testService "/api/v4/groups/1234/clusters/18" (okResponse JNull))
         (GidInt 1234) 18 [] fresh)
  = (None, Some (okResponse JNull), None)
  /\ fst (listClustersValue (testService "/api/v4/groups/1234/clusters" (okResponse JNull))
            (GidInt 1234) [] fresh)
     = (nilSlice, Some (okResponse JNull), None).
Proof.
  split.
  - refine (proj1 (proj2 (null_body_results (TimeT := Timestamp.t)
                            (UserT := UserRef.t) (GroupT := GroupRef.t)
                            (testService "/api/v4/groups/1234/clusters/18"
                               (okResponse JNull))
                            (GidInt 1234) 18 None None [] fresh "1234"
                            (Some (okResponse JNull)) eq_refl))
              getRequest eq_refl _).
    exact (specDo_answersWith testBaseURL _ getRequest fresh (okResponse JNull)
             [getRequest] JNull eq_refl eq_refl eq_refl).
  - refine (proj1 (null_body_results (TimeT := Timestamp.t)
                     (UserT := UserRef.t) (GroupT := GroupRef.t)
                     (testService "/api/v4/groups/1234/clusters" (okResponse JNull))
                     (GidInt 1234) 18 None None [] fresh "1234"
                     (Some (okResponse JNull)) eq_refl)
              listRequest eq_refl _).
    exact (specDo_answersWith testBaseURL _ listRequest fresh (okResponse JNull)
             [listRequest] JNull eq_refl eq_refl eq_refl).
Defined.

(** [list_preserves_order] at a test server that answers with
    [twoElements]. *)
Lemma list_order_witness :
  fst (listClustersValue (testService "/api/v4/groups/1234/clusters"
                            (okResponse twoElements)) (GidInt 1234) [] fresh)
  = (mkSlice [None; Some (set_ID 7 zero)], Some (okResponse twoElements), None).
Proof.
  refine (proj1 (list_preserves_order (TimeT := Timestamp.t) (UserT := UserRef.t)
                   (GroupT := GroupRef.t)
                   (testService "/api/v4/groups/1234/clusters"
                      (okResponse twoElements))
                   (GidInt 1234) [] fresh "1234" listRequest
                   (Some (okResponse twoElements))
                   [JNull; JObject [("id", JNumber "7")]] eq_refl eq_refl _)
            [None; Some (set_ID 7 zero)] _).
  - exact (specDo_answersWith testBaseURL _ listRequest fresh
             (okResponse twoElements) [listRequest] twoElements
             eq_refl eq_refl eq_refl).
  - repeat constructor.
Defined.

(** [last_member_decides_field] at an object that sets [domain] twice,
    the second time under the key [Domain], and then gives [null]. *)
Lemma last_member_witness :
  exists c : ClusterValue,
    unmarshalJSON
      (JObject ([("domain", JString "old.example.com")]
                ++ ("Domain", JString "example.com") :: [("domain", JNull)]))
      zero = Ok c
    /\ Domain c = "example.com".
Proof.
  eexists. split; [vm_compute; reflexivity|].
  refine (proj2 (proj2 (last_member_decides_field (TimeT := Timestamp.t)
                          (UserT := UserRef.t) (GroupT := GroupRef.t) "Domain"
                          [("domain", JString "old.example.com")]
                          [("domain", JNull)] zero _))
            "example.com" eq_refl _ _).
  - repeat constructor.
  - vm_compute. reflexivity.
Defined.

(** [mistyped_member_fails] at an [id] given as a string. *)
Lemma mistyped_id_witness :
  exists e,
    unmarshalJSON (JObject ([] ++ ("id", JString "18") :: [("name", JString "c")]))
      (zero : ClusterValue) = Fail e.
Proof.
  exact (proj1 (mistyped_member_fails (TimeT := Timestamp.t) (UserT := UserRef.t)
                  (GroupT := GroupRef.t) "id" (JString "18") []
                  [("name", JString "c")] zero) eq_refl I).
Defined.

(** [null_clears_pointer_fields] at an object that sets [group] and
    then gives [null] for it. *)
Lemma null_group_witness :
  exists c : ClusterValue,
    unmarshalJSON
      (JObject ([("group", JObject [("id", JNumber "26")])]
                ++ ("group", JNull) :: [("id", JNumber "24")]))
      zero = Ok c
    /\ ID c = 24%Z
    /\ Group c = None.
Proof.
  eexists. split; [vm_compute; reflexivity|split; [reflexivity|]].
  refine (proj1 (null_clears_pointer_fields (TimeT := Timestamp.t)
                   (UserT := UserRef.t) (GroupT := GroupRef.t) "group"
                   [("group", JObject [("id", JNumber "26")])]
                   [("id", JNumber "24")] zero _ _) eq_refl _).
  - vm_compute. reflexivity.
  - repeat constructor; simpl; intro H; discriminate H.
Defined.

(** [unknown_members_are_ignored] at a response that echoes the
    request's [platform_kubernetes_attributes]. *)
Lemma unknown_member_witness :
  unmarshalJSON
    (JObject ([("name", JString "c")]
              ++ ("platform_kubernetes_attributes", JObject [("token", JNumber "1")])
                 :: [("domain", JString "d")]))
    (zero : GroupCluster Timestamp.t UserRef.t GroupRef.t)
  = unmarshalJSON (JObject ([("name", JString "c")] ++ [("domain", JString "d")]))
      zero.
Proof.
  pose proof (unknown_members_are_ignored (TimeT := Timestamp.t)
                (UserT := UserRef.t) (GroupT := GroupRef.t)
                "platform_kubernetes_attributes"
                (JObject [("token", JNumber "1")])
                [("name", JString "c")] [("domain", JString "d")] zero zero)
    as [Hcluster [_ [Hkey _]]].
  exact (Hcluster Hkey).
Defined.

(** [cluster_paths_are_distinct] at clusters 18 and 19 of the test
    group. *)
Lemma distinct_paths_witness :
  builds (calls (snd (GetCluster (TimeT := Timestamp.t) (UserT := UserRef.t)
                        (GroupT := GroupRef.t) getService (GidInt 1234) 18 []
                        fresh)))
  <> builds (calls (snd (GetCluster (TimeT := Timestamp.t) (UserT := UserRef.t)
                           (GroupT := GroupRef.t) getService (GidInt 1234) 19 []
                           fresh))).
Proof.
  intro H.
  apply (proj1 (cluster_paths_are_distinct (TimeT := Timestamp.t)
                  (UserT := UserRef.t) (GroupT := GroupRef.t)
                  (helpers := specHelpers) getService
                  (GidInt 1234) 18 19 None [] fresh "1234" eq_refl)) in H.
  discriminate H.
Defined.

(** [body_decodes_from_zero] at a test server that answers with
    [onlyID]. *)
Lemma get_body_witness :
  fst (getClusterValue (testService "/api/v4/groups/1234/clusters/18"
                          (okResponse onlyID)) (GidInt 1234) 18 [] fresh)
  = (Some (set_ID 18 zero), Some (okResponse onlyID), None).
Proof.
  exact (proj1 (body_decodes_from_zero (TimeT := Timestamp.t)
                  (UserT := UserRef.t) (GroupT := GroupRef.t)
                  (helpers := specHelpers)
                  (testService "/api/v4/groups/1234/clusters/18" (okResponse onlyID))
                  (GidInt 1234) 18 None None [] fresh "1234"
                  (Some (okResponse onlyID)) onlyID eq_refl onlyID_not_null)
           getRequest eq_refl
           (specDo_answersWith testBaseURL _ getRequest fresh
              (okResponse onlyID) [getRequest] onlyID eq_refl eq_refl eq_refl)).
Defined.
